(** * k6 load-test suite: helpers, journeys and report

    A shallow embedding of the k6 scripts of the repository
    (config.js, helpers.js, the load / stress / spike / load-test2
    journeys and report-generator.js) together with the properties of
    the engine that the specification states about them.

    The k6 runtime itself (the HTTP client, [check], [group], [sleep],
    the metric objects, the wall clock and [Math.random]) is modelled as
    a state-and-exception monad over an explicit [World] oracle. *)

From Stdlib Require Import ZArith QArith Qround String Ascii List Lia Lqa.
From stdpp Require Import base gmap strings list sorting pretty.

#[local] Set Warnings "-register-all".

Local Open Scope Z_scope.
Local Open Scope string_scope.
Local Open Scope list_scope.

(** ** JavaScript values *)

(** The values [JSON.parse] can produce, plus [undefined].  Objects keep
    their entries in order; a property read returns the first entry with
    that key. *)
Inductive JSVal : Type :=
| VUndefined
| VNull
| VBool (b : bool)
| VNum (q : Q)
| VStr (s : string)
| VArr (items : list JSVal)
| VObj (fields : list (string * JSVal)).

(** Exceptions the scripts can meet. *)
Inductive Exn : Type :=
| SyntaxError
| TypeError
| Error (msg : string).

Inductive Outcome (A : Type) : Type :=
| Return (a : A)
| Throw (e : Exn).
Arguments Return {A} a.
Arguments Throw {A} e.

(** ToBoolean. *)
Definition truthy (v : JSVal) : bool :=
  match v with
  | VUndefined | VNull => false
  | VBool b => b
  | VNum q => negb (Qeq_bool q 0)
  | VStr s => negb (String.eqb s "")
  | VArr _ | VObj _ => true
  end.

Fixpoint assoc (k : string) (fields : list (string * JSVal)) : option JSVal :=
  match fields with
  | [] => None
  | (k', v) :: rest => if String.eqb k k' then Some v else assoc k rest
  end.

(** Own property of a value: only objects carry the keys read by the
    scripts ([data], [accessToken], [userId], [email], [scheduleId],
    [dayPlanId], [content]). *)
Definition own_prop (v : JSVal) (k : string) : option JSVal :=
  match v with
  | VObj fields => assoc k fields
  | _ => None
  end.

(** [v.k]: a TypeError on [null] and [undefined], [undefined] when the
    property is absent. *)
Definition get_prop (v : JSVal) (k : string) : Outcome JSVal :=
  match v with
  | VUndefined | VNull => Throw TypeError
  | _ => Return (default VUndefined (own_prop v k))
  end.

(** [try { e } catch (_) { h }] on pure expressions. *)
Definition try_catch {A} (e : Outcome A) (h : Exn -> Outcome A) : Outcome A :=
  match e with
  | Return a => Return a
  | Throw x => h x
  end.

Definition obind {A B} (e : Outcome A) (k : A -> Outcome B) : Outcome B :=
  match e with
  | Return a => k a
  | Throw x => Throw x
  end.

(** ** HTTP responses *)

(** [response.body] as [JSON.parse] sees it: [null] (k6 returns no body
    when the request itself failed; [JSON.parse(null)] is [null]), or a
    text that parses to a value or does not parse at all. *)
Inductive Body : Type :=
| BodyNull
| BodyText (parsed : option JSVal).

Definition JSON_parse (b : Body) : Outcome JSVal :=
  match b with
  | BodyNull => Return VNull
  | BodyText (Some v) => Return v
  | BodyText None => Throw SyntaxError
  end.

Record Response : Type := mkResponse {
  status : Z;
  body : Body;
  timings_duration : Q;
  cookies : JSVal;
}.

(** ** Requests *)

Inductive Method : Type := GET | POST | PUT | PATCH | DEL.

(** A piece of a template literal. *)
Inductive Seg : Type :=
| Lit (s : string)
| Val (v : JSVal).

Inductive HeaderVal : Type :=
| Text (s : string)
| Bearer (token : JSVal).

Record Request : Type := mkRequest {
  req_method : Method;
  req_base : string;
  req_path : list Seg;
  req_headers : option (gmap string HeaderVal);
  req_tag : string;
  req_timeout : string;
}.

(** ** config.js *)

Record Timeouts : Type := mkTimeouts {
  timeout_default : string;
  timeout_ai_related : string;
}.

(** The module-level constants every helper reads. *)
Record Config : Type := mkConfig {
  BASE_URL : string;
  DEFAULT_HEADERS : gmap string HeaderVal;
  TIMEOUTS : Timeouts;
}.

Definition config_js : Config :=
  {| BASE_URL := "https://molip.today/api/task";
     DEFAULT_HEADERS :=
       <["Accept" := Text "application/json"]>
         (<["Content-Type" := Text "application/json"]> ∅);
     TIMEOUTS := {| timeout_default := "10s"; timeout_ai_related := "30s" |} |}.

(** ** The k6 runtime *)

(** A reading of the clock: the epoch time, the [YYYY-MM-DD] part of
    [toISOString()], and the local time of day in minutes, which stands
    for the [HH:mm] text of [toTimeString().slice(0, 5)]. *)
Record Instant : Type := mkInstant {
  epoch_ms : Q;
  iso_day : string;
  local_minutes : Z;
}.

(** What the outside world answers: the n-th HTTP exchange, the n-th
    [Math.random()] and the n-th reading of the clock. *)
Record World : Type := mkWorld {
  http : nat -> Response;
  random : nat -> Q;
  clock : nat -> Instant;
}.

Record State : Type := mkState {
  cfg : Config;
  n_http : nat;
  n_random : nat;
  n_clock : nat;
  requests : list Request;
  trends : gmap string (list Q);
  rates : gmap string (list bool);
  checks : list (string * bool);
  sleeps : list Q;
}.

Definition initial_state : State :=
  {| cfg := config_js; n_http := 0; n_random := 0; n_clock := 0;
     requests := []; trends := ∅; rates := ∅; checks := []; sleeps := [] |}.

(** A script computation: reads the world, threads the state, returns or
    throws. *)
Definition K6 (A : Type) : Type := World -> State -> State * Outcome A.

Definition ret {A} (a : A) : K6 A := fun _ s => (s, Return a).

Definition throw {A} (e : Exn) : K6 A := fun _ s => (s, Throw e).

Definition bind {A B} (m : K6 A) (k : A -> K6 B) : K6 B :=
  fun w s =>
    match m w s with
    | (s', Return a) => k a w s'
    | (s', Throw e) => (s', Throw e)
    end.

Definition lift {A} (o : Outcome A) : K6 A := fun _ s => (s, o).

Declare Scope k6_scope.
Delimit Scope k6_scope with k6.
Notation "'let*' x ':=' m 'in' k" := (bind m (fun x => k))
  (at level 10, x pattern, m at level 100, k at level 200) : k6_scope.
Notation "m ';;' k" := (bind m (fun _ => k))
  (at level 100, k at level 200, right associativity) : k6_scope.
Local Open Scope k6_scope.

Definition get_cfg : K6 Config := fun _ s => (s, Return (cfg s)).

(** *** State updates *)

Definition add_request (req : Request) (s : State) : State :=
  {| cfg := cfg s; n_http := S (n_http s); n_random := n_random s;
     n_clock := n_clock s; requests := requests s ++ [req];
     trends := trends s; rates := rates s; checks := checks s;
     sleeps := sleeps s |}.

Definition add_trend (name : string) (v : Q) (s : State) : State :=
  {| cfg := cfg s; n_http := n_http s; n_random := n_random s;
     n_clock := n_clock s; requests := requests s;
     trends := <[name := default [] (trends s !! name) ++ [v]]> (trends s);
     rates := rates s; checks := checks s; sleeps := sleeps s |}.

Definition add_rate (name : string) (b : bool) (s : State) : State :=
  {| cfg := cfg s; n_http := n_http s; n_random := n_random s;
     n_clock := n_clock s; requests := requests s; trends := trends s;
     rates := <[name := default [] (rates s !! name) ++ [b]]> (rates s);
     checks := checks s; sleeps := sleeps s |}.

Definition add_checks (l : list (string * bool)) (s : State) : State :=
  {| cfg := cfg s; n_http := n_http s; n_random := n_random s;
     n_clock := n_clock s; requests := requests s; trends := trends s;
     rates := rates s; checks := checks s ++ l; sleeps := sleeps s |}.

Definition add_sleep (seconds : Q) (s : State) : State :=
  {| cfg := cfg s; n_http := n_http s; n_random := n_random s;
     n_clock := n_clock s; requests := requests s; trends := trends s;
     rates := rates s; checks := checks s; sleeps := sleeps s ++ [seconds] |}.

Definition use_random (k : nat) (s : State) : State :=
  {| cfg := cfg s; n_http := n_http s; n_random := (k + n_random s)%nat;
     n_clock := n_clock s; requests := requests s; trends := trends s;
     rates := rates s; checks := checks s; sleeps := sleeps s |}.

Definition use_clock (k : nat) (s : State) : State :=
  {| cfg := cfg s; n_http := n_http s; n_random := n_random s;
     n_clock := (k + n_clock s)%nat; requests := requests s; trends := trends s;
     rates := rates s; checks := checks s; sleeps := sleeps s |}.

(** *** Primitives *)

Definition Math_random : K6 Q := fun w s =>
  (use_random 1 s, Return (random w (n_random s))).

(** [new Date()] and [Date.now()]. *)
Definition new_Date : K6 Instant := fun w s =>
  (use_clock 1 s, Return (clock w (n_clock s))).

Definition sleep (seconds : Q) : K6 unit := fun _ s =>
  (add_sleep seconds s, Return tt).

(** One HTTP exchange: the request is logged, the world answers.  k6
    never raises on a failed exchange; it answers with status 0. *)
Definition http_request (m : Method) (base : string) (path : list Seg)
    (headers : option (gmap string HeaderVal)) (tag timeout : string) : K6 Response :=
  fun w s =>
    (add_request
       {| req_method := m; req_base := base; req_path := path;
          req_headers := headers; req_tag := tag; req_timeout := timeout |} s,
     Return (http w (n_http s))).

(** [Trend.add]. *)
Definition trend_add (name : string) (v : Q) : K6 unit := fun _ s =>
  (add_trend name v s, Return tt).

(** [Rate.add]. *)
Definition rate_add (name : string) (b : bool) : K6 unit := fun _ s =>
  (add_rate name b s, Return tt).

Definition record_check (name : string) (passed : bool) : K6 unit := fun _ s =>
  (add_checks [(name, passed)] s, Return tt).

Definition Pred : Type := Response -> Outcome JSVal.

(** [check(response, { name: predicate, ... })]: every predicate is
    evaluated in turn and its verdict recorded; the result is true when
    all of them held. *)
Fixpoint check (r : Response) (preds : list (string * Pred)) : K6 bool :=
  match preds with
  | [] => ret true
  | (name, p) :: rest =>
      let* v := lift (p r) in
      record_check name (truthy v);;
      let* ok := check r rest in
      ret (truthy v && ok)
  end.

(** [group(name, fn)] runs [fn]. *)
Definition group {A} (name : string) (fn : K6 A) : K6 A := fn.

(** [a && b]. *)
Definition js_and (a b : Outcome JSVal) : Outcome JSVal :=
  obind a (fun va => if truthy va then b else Return va).

Definition Qltb (a b : Q) : bool := negb (Qle_bool b a).

(** *** The predicates used by the helpers *)

(** [(r) => r.status === n] *)
Definition status_is (n : Z) : Pred :=
  fun r => Return (VBool (Z.eqb (status r) n)).

(** [(r) => r.status === n || r.status === m] *)
Definition status_is_either (n m : Z) : Pred :=
  fun r => Return (VBool (Z.eqb (status r) n || Z.eqb (status r) m)).

(** [(r) => r.timings.duration < ms] *)
Definition faster_than (ms : Q) : Pred :=
  fun r => Return (VBool (Qltb (timings_duration r) ms)).

(** [(r) => { try { const body = JSON.parse(r.body);
                    return body.data && body.data.fld; }
              catch (e) { return false; } }] *)
Definition has_data_field (fld : string) : Pred :=
  fun r =>
    try_catch
      (obind (JSON_parse (body r)) (fun body =>
         js_and (get_prop body "data")
                (obind (get_prop body "data") (fun data => get_prop data fld))))
      (fun _ => Return (VBool false)).

(** ** config.js: test-data utilities *)

Definition chars : string := "abcdefghijklmnopqrstuvwxyz0123456789".

(** [chars.charAt(i)]: the empty string out of range. *)
Definition charAt (s : string) (i : Z) : string :=
  if Z.ltb i 0 then ""
  else match String.get (Z.to_nat i) s with
       | Some c => String c ""
       | None => ""
       end.

Fixpoint randomString (length : nat) : K6 string :=
  match length with
  | O => ret ""
  | S n =>
      let* r := Math_random in
      let* rest := randomString n in
      ret (charAt chars (Qfloor (r * 36)) +:+ rest)
  end.

(** `loadtest_${randomString(8)}_${Date.now()}@test.com` *)
Definition randomEmail : K6 (list Seg) :=
  let* rs := randomString 8 in
  let* now := new_Date in
  ret [Lit "loadtest_"; Val (VStr rs); Lit "_"; Val (VNum (epoch_ms now));
       Lit "@test.com"].

Definition getTodayDate : K6 string :=
  let* now := new_Date in
  ret (iso_day now).

Definition getCurrentTime : K6 Z :=
  let* now := new_Date in
  ret (local_minutes now).

Definition getTimeAfterMinutes (minutes : Z) : K6 Z :=
  let* now := new_Date in
  ret ((local_minutes now + minutes) mod 1440).

(** ** helpers.js *)

(** *** Custom metrics *)

Definition loginDuration : string := "login_duration".
Definition loginFailRate : string := "login_failures".
Definition refreshTokenDuration : string := "refresh_token_duration".
Definition signupDuration : string := "signup_duration".
Definition getProfileDuration : string := "get_profile_duration".
Definition searchUsersDuration : string := "search_users_duration".
Definition createScheduleDuration : string := "create_schedule_duration".
Definition getSchedulesDuration : string := "get_schedules_duration".
Definition updateScheduleDuration : string := "update_schedule_duration".
Definition deleteScheduleDuration : string := "delete_schedule_duration".
Definition aiArrangementDuration : string := "ai_arrangement_duration".
Definition fullScenarioDuration : string := "full_scenario_duration".
Definition scenarioFailRate : string := "scenario_failures".

(** [{ ...DEFAULT_HEADERS, 'Authorization': `Bearer ${accessToken}` }] *)
Definition auth_headers (c : Config) (accessToken : JSVal) : gmap string HeaderVal :=
  <["Authorization" := Bearer accessToken]> (DEFAULT_HEADERS c).

(** The request payloads ([JSON.stringify] of literal objects) are not
    part of [Request]; what building them reads from the clock and from
    [Math.random] is kept. *)

Definition login_checks : list (string * Pred) :=
  [("login: status is 200", status_is 200);
   ("login: has access token", has_data_field "accessToken");
   ("login: response time < 500ms", faster_than 500)].

(** *** Authentication *)

Definition login (email password : string) : K6 JSVal :=
  let* c := get_cfg in
  let* response :=
    http_request POST (BASE_URL c) [Lit "/token"] (Some (DEFAULT_HEADERS c))
      "login" (timeout_default (TIMEOUTS c)) in
  trend_add loginDuration (timings_duration response);;
  let* success :=
    check response login_checks in
  rate_add loginFailRate (negb success);;
  if negb success then ret VNull
  else
    let* body := lift (JSON_parse (body response)) in
    let* data := lift (get_prop body "data") in
    let* accessToken := lift (get_prop data "accessToken") in
    ret (VObj [("accessToken", accessToken); ("cookies", cookies response)]).

Definition refreshToken_checks : list (string * Pred) :=
  [("refresh: status is 200", status_is 200);
   ("refresh: has new access token", has_data_field "accessToken");
   ("refresh: response time < 300ms", faster_than 300)].

Definition refreshToken (cookies_ : JSVal) : K6 JSVal :=
  let* c := get_cfg in
  let* response :=
    http_request PUT (BASE_URL c) [Lit "/token"] (Some (DEFAULT_HEADERS c))
      "refresh_token" (timeout_default (TIMEOUTS c)) in
  trend_add refreshTokenDuration (timings_duration response);;
  let* success :=
    check response refreshToken_checks in
  if negb success then ret VNull
  else
    let* body := lift (JSON_parse (body response)) in
    let* data := lift (get_prop body "data") in
    let* accessToken := lift (get_prop data "accessToken") in
    ret (VObj [("accessToken", accessToken); ("cookies", cookies response)]).

Definition logout_checks : list (string * Pred) :=
  [("logout: status is 204", status_is 204)].

Definition logout (accessToken : JSVal) : K6 unit :=
  let* c := get_cfg in
  let* response :=
    http_request DEL (BASE_URL c) [Lit "/token"] (Some (auth_headers c accessToken))
      "logout" (timeout_default (TIMEOUTS c)) in
  let* _ := check response logout_checks in
  ret tt.

Definition signup_checks : list (string * Pred) :=
  [("signup: status is 201", status_is 200);
   ("signup: has user id", has_data_field "userId")].

Definition signup : K6 JSVal :=
  let* email := randomEmail in
  let* c := get_cfg in
  let* response :=
    http_request POST (BASE_URL c) [Lit "/users"] (Some (DEFAULT_HEADERS c))
      "signup" (timeout_default (TIMEOUTS c)) in
  trend_add signupDuration (timings_duration response);;
  let* success :=
    check response signup_checks in
  if negb success then ret VNull
  else
    let* body := lift (JSON_parse (body response)) in
    let* data := lift (get_prop body "data") in
    let* userId := lift (get_prop data "userId") in
    let* accessToken := lift (get_prop data "accessToken") in
    ret (VObj [("userId", userId); ("accessToken", accessToken);
               ("cookies", cookies response)]).

Definition getProfile_checks : list (string * Pred) :=
  [("get_profile: status is 200", status_is 200);
   ("get_profile: has user data", has_data_field "email");
   ("get_profile: response time < 500ms", faster_than 500)].

(** *** Users *)

Definition getProfile (accessToken : JSVal) : K6 JSVal :=
  let* c := get_cfg in
  let* response :=
    http_request GET (BASE_URL c) [Lit "/users"] (Some (auth_headers c accessToken))
      "get_profile" (timeout_default (TIMEOUTS c)) in
  trend_add getProfileDuration (timings_duration response);;
  let* success :=
    check response getProfile_checks in
  if negb success then ret VNull
  else
    let* body := lift (JSON_parse (body response)) in
    lift (get_prop body "data").

Definition searchUsers_checks : list (string * Pred) :=
  [("search_users: status is 200", status_is 200);
   ("search_users: response time < 1000ms", faster_than 1000)].

Definition searchUsers (accessToken : JSVal) (nickname : string) (page size : Z)
    : K6 Response :=
  let* c := get_cfg in
  let* response :=
    http_request GET (BASE_URL c)
      [Lit "/users/nickname?nickname="; Val (VStr nickname);
       Lit "&page="; Val (VNum (inject_Z page));
       Lit "&size="; Val (VNum (inject_Z size))]
      (Some (auth_headers c accessToken))
      "search_users" (timeout_default (TIMEOUTS c)) in
  trend_add searchUsersDuration (timings_duration response);;
  let* _ :=
    check response searchUsers_checks in
  ret response.

(** *** Schedules *)

Definition createSchedule_checks : list (string * Pred) :=
  [("create_schedule: status is 201", status_is 200);
   ("create_schedule: has schedule id", has_data_field "scheduleId");
   ("create_schedule: response time < 1500ms", faster_than 1500)].

(** [defaultData] is built on every call, whether or not the caller
    passes its own [scheduleData]. *)
Definition createSchedule (accessToken dayPlanId : JSVal) : K6 JSVal :=
  let* title := randomString 5 in
  let* startAt := getCurrentTime in
  let* endAt := getTimeAfterMinutes 60 in
  let* focusLevel := Math_random in
  let* c := get_cfg in
  let* response :=
    http_request POST (BASE_URL c)
      [Lit "/day-plan/"; Val dayPlanId; Lit "/schedule"]
      (Some (auth_headers c accessToken))
      "create_schedule" (timeout_default (TIMEOUTS c)) in
  trend_add createScheduleDuration (timings_duration response);;
  let* success :=
    check response createSchedule_checks in
  if negb success then ret VNull
  else
    let* body := lift (JSON_parse (body response)) in
    lift (get_prop body "data").

Definition getSchedules_checks : list (string * Pred) :=
  [("get_schedules: status is 200", status_is 200);
   ("get_schedules: response time < 1000ms", faster_than 1000)].

Definition getSchedules (accessToken dayPlanId : JSVal) (page size : Z) : K6 Response :=
  let* targetDate := getTodayDate in
  let* c := get_cfg in
  let* response :=
    http_request GET (BASE_URL c)
      [Lit "/day-plan/schedule?date="; Val (VStr targetDate);
       Lit "&page="; Val (VNum (inject_Z page));
       Lit "&size="; Val (VNum (inject_Z size))]
      (Some (auth_headers c accessToken))
      "get_schedules" (timeout_default (TIMEOUTS c)) in
  trend_add getSchedulesDuration (timings_duration response);;
  let* _ :=
    check response getSchedules_checks in
  ret response.

Definition getSchedulesByDate_checks : list (string * Pred) :=
  [("get_schedules_by_date: status is 200", status_is 200);
   ("get_schedules_by_date: has dayPlanId", has_data_field "dayPlanId")].

(** The result object also carries the response itself, which no caller
    reads; it is left out of the value. *)
Definition getSchedulesByDate (accessToken : JSVal) (date : option string) : K6 JSVal :=
  let* targetDate :=
    match date with
    | Some d => if String.eqb d "" then getTodayDate else ret d
    | None => getTodayDate
    end in
  let* c := get_cfg in
  let* response :=
    http_request GET (BASE_URL c)
      [Lit "/day-plan/schedule?date="; Val (VStr targetDate); Lit "&page=1&size=10"]
      (Some (auth_headers c accessToken))
      "get_schedules_by_date" (timeout_default (TIMEOUTS c)) in
  trend_add getSchedulesDuration (timings_duration response);;
  let* success :=
    check response getSchedulesByDate_checks in
  if negb success then ret VNull
  else
    let* body := lift (JSON_parse (body response)) in
    let* data := lift (get_prop body "data") in
    let* dayPlanId := lift (get_prop data "dayPlanId") in
    let* content := lift (get_prop data "content") in
    ret (VObj [("dayPlanId", dayPlanId);
               ("schedules", if truthy content then content else VArr [])]).

Definition getDayPlanId (accessToken : JSVal) (date : option string) : K6 JSVal :=
  let* result := getSchedulesByDate accessToken date in
  if negb (truthy result) then ret VNull
  else lift (get_prop result "dayPlanId").

Definition updateSchedule_checks : list (string * Pred) :=
  [("update_schedule: status is 204", status_is 204);
   ("update_schedule: response time < 1000ms", faster_than 1000)].

Definition updateSchedule (accessToken scheduleId : JSVal) : K6 Response :=
  let* c := get_cfg in
  let* response :=
    http_request PUT (BASE_URL c) [Lit "/schedule/"; Val scheduleId]
      (Some (auth_headers c accessToken))
      "update_schedule" (timeout_default (TIMEOUTS c)) in
  trend_add updateScheduleDuration (timings_duration response);;
  let* _ :=
    check response updateSchedule_checks in
  ret response.

Definition deleteSchedule_checks : list (string * Pred) :=
  [("delete_schedule: status is 204", status_is 204)].

Definition deleteSchedule (accessToken scheduleId : JSVal) : K6 Response :=
  let* c := get_cfg in
  let* response :=
    http_request DEL (BASE_URL c) [Lit "/schedule/"; Val scheduleId]
      (Some (auth_headers c accessToken))
      "delete_schedule" (timeout_default (TIMEOUTS c)) in
  trend_add deleteScheduleDuration (timings_duration response);;
  let* _ := check response deleteSchedule_checks in
  ret response.

Definition updateScheduleStatus_checks : list (string * Pred) :=
  [("update_schedule_status: status is 204", status_is 204)].

Definition updateScheduleStatus (accessToken scheduleId : JSVal) (status_ : string)
    : K6 Response :=
  let* c := get_cfg in
  let* response :=
    http_request PATCH (BASE_URL c) [Lit "/schedule/"; Val scheduleId; Lit "/status"]
      (Some (auth_headers c accessToken))
      "update_schedule_status" (timeout_default (TIMEOUTS c)) in
  let* _ := check response updateScheduleStatus_checks in
  ret response.

Definition aiScheduleArrangement_checks : list (string * Pred) :=
  [("ai_arrangement: status is 200 or 201", status_is_either 200 201);
   ("ai_arrangement: response time < 5000ms", faster_than 5000)].

Definition aiScheduleArrangement (accessToken dayPlanId : JSVal) : K6 Response :=
  let* c := get_cfg in
  let* response :=
    http_request POST (BASE_URL c)
      [Lit "/day-plan/"; Val dayPlanId; Lit "/schedules/ai-arrangement"]
      (Some (auth_headers c accessToken))
      "ai_arrangement" (timeout_ai_related (TIMEOUTS c)) in
  trend_add aiArrangementDuration (timings_duration response);;
  let* _ :=
    check response aiScheduleArrangement_checks in
  ret response.

Definition getNotifications_checks : list (string * Pred) :=
  [("get_notifications: status is 200", status_is 200)].

(** *** Notifications *)

Definition getNotifications (accessToken : JSVal) (page size : Z) : K6 Response :=
  let* c := get_cfg in
  let* response :=
    http_request GET (BASE_URL c)
      [Lit "/notifications?page="; Val (VNum (inject_Z page));
       Lit "&size="; Val (VNum (inject_Z size))]
      (Some (auth_headers c accessToken))
      "get_notifications" (timeout_default (TIMEOUTS c)) in
  let* _ := check response getNotifications_checks in
  ret response.

Definition registerFcmToken_checks : list (string * Pred) :=
  [("register_fcm_token: status is 204", status_is 204)].

Definition registerFcmToken (accessToken : JSVal) (fcmToken platform : string)
    : K6 Response :=
  let* c := get_cfg in
  let* response :=
    http_request POST (BASE_URL c) [Lit "/fcm-tokens"]
      (Some (auth_headers c accessToken))
      "register_fcm_token" (timeout_default (TIMEOUTS c)) in
  let* _ := check response registerFcmToken_checks in
  ret response.

Definition healthCheck_checks : list (string * Pred) :=
  [("health_check: status is 200", status_is 200);
   ("health_check: response time < 100ms", faster_than 100)].

(** *** Health check *)

Definition healthCheck : K6 bool :=
  let* c := get_cfg in
  let* response :=
    http_request GET (BASE_URL c) [Lit "/"] None
      "health_check" (timeout_default (TIMEOUTS c)) in
  check response healthCheck_checks.

(** *** Utilities *)

Definition thinkTime (min max : Q) : K6 unit :=
  let* r := Math_random in
  sleep (min + r * (max - min))%Q.

(** [users[(vuId - 1) % users.length]]: [%] is the truncating remainder;
    on an empty array the index is [NaN] and the read gives [undefined],
    as does any index outside the array. *)
Definition selectTestUser {A} (users : list A) (vuId : Z) : option A :=
  if Z.eqb (Z.of_nat (length users)) 0 then None
  else
    let index := Z.rem (vuId - 1) (Z.of_nat (length users)) in
    if Z.ltb index 0 then None else users !! Z.to_nat index.

(** ** The journeys *)

(** The signup group shared by the load, stress and spike scripts:
    [scenarioSuccess] and [accessToken] as the group leaves them. *)
Definition signup_group (name : string) : K6 (bool * JSVal) :=
  group name (
    let* signupResult := signup in
    if negb (truthy signupResult) then ret (false, VNull)
    else
      let* accessToken := lift (get_prop signupResult "accessToken") in
      ret (true, accessToken)).

(** [if (scheduleInfo && scheduleInfo.dayPlanId) dayPlanId = scheduleInfo.dayPlanId],
    starting from [dayPlanId = null]. *)
Definition dayPlanId_of (scheduleInfo : JSVal) : K6 JSVal :=
  let* cond := lift (js_and (Return scheduleInfo) (get_prop scheduleInfo "dayPlanId")) in
  if truthy cond then lift (get_prop scheduleInfo "dayPlanId") else ret VNull.

(** [if (createdSchedule && createdSchedule.scheduleId) deleteSchedule(...)] *)
Definition delete_if_created (accessToken createdSchedule : JSVal) : K6 unit :=
  let* cond :=
    lift (js_and (Return createdSchedule) (get_prop createdSchedule "scheduleId")) in
  if truthy cond then
    let* scheduleId := lift (get_prop createdSchedule "scheduleId") in
    deleteSchedule accessToken scheduleId;;
    ret tt
  else ret tt.

(** [if (createdSchedule && createdSchedule.scheduleId)
      updateScheduleStatus(accessToken, createdSchedule.scheduleId, 'DONE')] *)
Definition complete_if_created (accessToken createdSchedule : JSVal) : K6 unit :=
  let* cond :=
    lift (js_and (Return createdSchedule) (get_prop createdSchedule "scheduleId")) in
  if truthy cond then
    let* scheduleId := lift (get_prop createdSchedule "scheduleId") in
    updateScheduleStatus accessToken scheduleId "DONE";;
    ret tt
  else ret tt.

(** The tail of every iteration that ran to its end. *)
Definition record_scenario (scenarioStart : Instant) (scenarioSuccess : bool) : K6 unit :=
  let* now := new_Date in
  trend_add fullScenarioDuration (epoch_ms now - epoch_ms scenarioStart)%Q;;
  rate_add scenarioFailRate (negb scenarioSuccess).

(** *** load-test.js *)

Definition load_test_default : K6 unit :=
  let* scenarioStart := new_Date in
  let* (scenarioSuccess, accessToken) := signup_group "01_Signup" in
  if negb (truthy accessToken) then rate_add scenarioFailRate true
  else
    thinkTime 1 2;;
    let* (userProfile, dayPlanId) :=
      group "02_Initial_Load" (
        let* userProfile := getProfile accessToken in
        let* scheduleInfo := getSchedulesByDate accessToken None in
        let* dayPlanId := dayPlanId_of scheduleInfo in
        ret (userProfile, dayPlanId)) in
    if negb (truthy dayPlanId) then rate_add scenarioFailRate true
    else
      thinkTime 2 4;;
      let* (scenarioSuccess, createdSchedule) :=
        group "03_Schedule_Operations" (
          let* title := randomString 5 in
          let* startAt := getCurrentTime in
          let* endAt := getTimeAfterMinutes 60 in
          let* createdSchedule := createSchedule accessToken dayPlanId in
          let scenarioSuccess :=
            if negb (truthy createdSchedule) then false else scenarioSuccess in
          thinkTime 1 2;;
          getSchedules accessToken dayPlanId 1 10;;
          thinkTime 1 2;;
          complete_if_created accessToken createdSchedule;;
          ret (scenarioSuccess, createdSchedule)) in
      thinkTime 2 3;;
      group "04_Social_Features" (
        searchUsers accessToken "User" 1 10;;
        thinkTime 1 2;;
        getNotifications accessToken 1 10;;
        ret tt);;
      thinkTime 1 2;;
      group "05_Cleanup" (
        delete_if_created accessToken createdSchedule;;
        logout accessToken);;
      record_scenario scenarioStart scenarioSuccess;;
      sleep 1.

(** *** stress-test.js *)

Definition stress_test_default : K6 unit :=
  let* scenarioStart := new_Date in
  let* (scenarioSuccess, accessToken) := signup_group "signup" in
  if negb (truthy accessToken) then rate_add scenarioFailRate true
  else
    thinkTime (1 # 2) 1;;
    let* dayPlanId :=
      group "read_operations" (
        getProfile accessToken;;
        let* scheduleInfo := getSchedulesByDate accessToken None in
        dayPlanId_of scheduleInfo) in
    if negb (truthy dayPlanId) then rate_add scenarioFailRate true
    else
      thinkTime (1 # 2) 1;;
      let* (scenarioSuccess, createdSchedule) :=
        group "write_operations" (
          let* title := randomString 4 in
          let* startAt := getCurrentTime in
          let* endAt := getTimeAfterMinutes 30 in
          let* focusLevel := Math_random in
          let* createdSchedule := createSchedule accessToken dayPlanId in
          ret (if negb (truthy createdSchedule) then false else scenarioSuccess,
               createdSchedule)) in
      thinkTime (1 # 2) 1;;
      group "verify_operations" (
        getSchedules accessToken dayPlanId 1 10;;
        ret tt);;
      thinkTime (1 # 2) 1;;
      group "cleanup" (
        delete_if_created accessToken createdSchedule;;
        logout accessToken);;
      record_scenario scenarioStart scenarioSuccess;;
      sleep (1 # 2).

(** *** spike-test.js *)

Definition spike_test_default : K6 unit :=
  let* scenarioStart := new_Date in
  let* (scenarioSuccess, accessToken) := signup_group "quick_signup" in
  if negb (truthy accessToken) then rate_add scenarioFailRate true
  else
    sleep (1 # 10);;
    let* dayPlanId :=
      group "main_screen" (
        getProfile accessToken;;
        let* scheduleInfo := getSchedulesByDate accessToken None in
        dayPlanId_of scheduleInfo) in
    sleep (1 # 10);;
    let* shouldCreateSchedule :=
      if truthy dayPlanId then
        let* r := Math_random in
        ret (Qltb r (2 # 10))
      else ret false in
    (if shouldCreateSchedule then
       let* createdSchedule :=
         group "create_schedule" (
           let* title := randomString 4 in
           let* startAt := getCurrentTime in
           let* endAt := getTimeAfterMinutes 30 in
           createSchedule accessToken dayPlanId) in
       sleep (1 # 10);;
       delete_if_created accessToken createdSchedule
     else ret tt);;
    let* r := Math_random in
    (if Qltb r (5 # 10) then logout accessToken else ret tt);;
    record_scenario scenarioStart scenarioSuccess;;
    sleep (2 # 10).

(** *** Lifecycle hooks *)

(** [setup()]: the health check gates the whole run. *)
Definition setup (testType : string) : K6 string :=
  let* isHealthy := healthCheck in
  if negb isHealthy then throw (Error "Server health check failed")
  else
    let* startTime := new_Date in
    ret testType.

(** Modelled from the spec: the runner that k6 provides (§4.4, §7): the
    setup hook runs once, then the default function once per iteration;
    a failure of the setup hook halts the run before any iteration. *)
Fixpoint iterate (n : nat) (default : K6 unit) : K6 unit :=
  match n with
  | O => ret tt
  | S k => default;; iterate k default
  end.

Definition test_run (testType : string) (default : K6 unit) (iterations : nat) : K6 unit :=
  setup testType;;
  iterate iterations default.

(** ** Observations on a run *)

(** The tags of the requests issued from state [s0] on. *)
Definition tags_since (s0 s : State) : list string :=
  map req_tag (drop (length (requests s0)) (requests s)).

(** The tags of all requests issued so far. *)
Definition tags (s : State) : list string := map req_tag (requests s).

Definition invocations (tag : string) (tags : list string) : nat :=
  length (filter (fun t => t = tag) tags).

(** ** Sample worlds *)

Definition signup_ok : Response :=
  {| status := 200;
     body := BodyText (Some (VObj [("data",
               VObj [("userId", VNum 17); ("accessToken", VStr "jwt")])]));
     timings_duration := 120; cookies := VObj [] |}.

Definition profile_ok : Response :=
  {| status := 200;
     body := BodyText (Some (VObj [("data", VObj [("email", VStr "a@test.com")])]));
     timings_duration := 80; cookies := VObj [] |}.

Definition by_date_ok : Response :=
  {| status := 200;
     body := BodyText (Some (VObj [("data",
               VObj [("dayPlanId", VNum 7); ("content", VArr [])])]));
     timings_duration := 90; cookies := VObj [] |}.

Definition create_ok : Response :=
  {| status := 200;
     body := BodyText (Some (VObj [("data", VObj [("scheduleId", VNum 99)])]));
     timings_duration := 150; cookies := VObj [] |}.

(** A request that ran into its timeout: status 0, no body. *)
Definition timed_out : Response :=
  {| status := 0; body := BodyNull; timings_duration := 10000; cookies := VUndefined |}.

Definition no_content : Response :=
  {| status := 204; body := BodyText None; timings_duration := 40; cookies := VObj [] |}.

Definition ok_empty : Response :=
  {| status := 200; body := BodyText (Some (VObj [("data", VArr [])]));
     timings_duration := 40; cookies := VObj [] |}.

Definition sample_clock (n : nat) : Instant :=
  {| epoch_ms := inject_Z (1000 * Z.of_nat n); iso_day := "2026-01-05";
     local_minutes := 600 |}.

(** Signup, profile and day plan succeed; creating the schedule times out. *)
Definition world_create_times_out : World :=
  {| http := fun n =>
       match n with
       | 0%nat => signup_ok
       | 1%nat => profile_ok
       | 2%nat => by_date_ok
       | 3%nat => timed_out
       | _ => ok_empty
       end;
     random := fun _ => 1 # 2;
     clock := sample_clock |}.

(** Signup succeeds; the day plan lookup answers without a [dayPlanId]. *)
Definition world_no_day_plan : World :=
  {| http := fun n =>
       match n with
       | 0%nat => signup_ok
       | 1%nat => profile_ok
       | 2%nat => ok_empty
       | _ => create_ok
       end;
     random := fun _ => 1 # 2;
     clock := sample_clock |}.

(** Every request is answered with a body that does not parse. *)
Definition world_unparsable : World :=
  {| http := fun _ => no_content; random := fun _ => 1 # 2; clock := sample_clock |}.

(** Every step succeeds. *)
Definition world_all_ok : World :=
  {| http := fun n =>
       match n with
       | 0%nat => signup_ok
       | 1%nat => profile_ok
       | 2%nat => by_date_ok
       | 3%nat => create_ok
       | 4%nat => ok_empty
       | _ => no_content
       end;
     random := fun _ => 1 # 10;
     clock := sample_clock |}.

(** ** report-generator.js *)

(** *** The summary k6 hands to [handleSummary] *)

Record Metric : Type := mkMetric {
  values : option (gmap string Q);
}.

Record ThresholdResult : Type := mkThresholdResult {
  ok : bool;
}.

Record CheckEntry : Type := mkCheckEntry {
  check_name : string;
  check_passes : option Z;
  check_fails : option Z;
}.

Inductive Group : Type :=
| mkGroup (group_checks : option (list CheckEntry)) (group_groups : option (list Group)).

(** [data.thresholds] keeps its entries in insertion order, as
    [Object.entries] walks them. *)
Record Summary : Type := mkSummary {
  metrics : gmap string Metric;
  thresholds : option (list (string * ThresholdResult));
  root_group : option Group;
}.

(** *** The report *)

(** Where a cell of the report takes its content from. *)
Inductive Source : Type :=
| TestName
| Stat (metric key : string)
| ThresholdCount (passed : bool)
| ThresholdVerdict (name : string)
| CheckName (name : string)
| CheckPasses (name : string)
| CheckFails (name : string)
| CheckRate (name : string)
| CheckVerdict (name : string)
| MetricName (name : string).

(** What a cell shows.  Rounding ([toFixed]), digit grouping and the
    choice of unit in [formatMs] are presentation and left out. *)
Inductive Shown : Type :=
| Num (q : Q)
| NA
| Badge (pass : bool)
| Txt (s : string).

Record Cell : Type := mkCell {
  source : Source;
  shown : Shown;
}.

Record Report : Type := mkReport {
  summary_cards : list Cell;
  response_time : list Cell;
  threshold_section : list Cell;
  execution_info : list Cell;
  api_detail : list (list Cell);
  http_detail : list (list Cell);
  check_detail : list (list Cell);
  raw_data : gmap string Metric;
}.

(** [(metrics[name] || {}).values?.[key]] *)
Definition stat_of (d : Summary) (name key : string) : option Q :=
  match metrics d !! name with
  | Some m =>
      match values m with
      | Some vs => vs !! key
      | None => None
      end
  | None => None
  end.

(** [x || 0] on a number that may be [undefined]. *)
Definition or_zero (x : option Q) : Q := default 0%Q x.

Definition number_cell (d : Summary) (name key : string) : Cell :=
  {| source := Stat name key; shown := Num (or_zero (stat_of d name key)) |}.

(** [formatMs(value)] *)
Definition formatMs (value : option Q) : Shown :=
  match value with
  | None => NA
  | Some v => Num v
  end.

Definition ms_cell (d : Summary) (name key : string) : Cell :=
  {| source := Stat name key; shown := formatMs (stat_of d name key) |}.

Definition nameMap : list (string * string) :=
  [("signup_duration", "signup"); ("login_duration", "login");
   ("create_schedule_duration", "create schedule");
   ("get_schedules_duration", "get schedules");
   ("get_profile_duration", "get profile");
   ("search_users_duration", "search users");
   ("delete_schedule_duration", "delete schedule");
   ("full_scenario_duration", "full scenario");
   ("group_duration", "group"); ("iteration_duration", "iteration")].

Fixpoint lookup_name (name : string) (m : list (string * string)) : option string :=
  match m with
  | [] => None
  | (k, v) :: rest => if String.eqb name k then Some v else lookup_name name rest
  end.

(** [formatMetricName(name)]; the display names are Korean in the
    source and rendered in English here. *)
Definition formatMetricName (name : string) : string :=
  match lookup_name name nameMap with
  | Some v => if String.eqb v "" then name else v
  | None => name
  end.

Definition durationMetricNames : list string :=
  ["signup_duration"; "login_duration"; "create_schedule_duration";
   "get_schedules_duration"; "get_profile_duration"; "search_users_duration";
   "delete_schedule_duration"; "full_scenario_duration"; "group_duration";
   "iteration_duration"].

(** [const thresholdResults = Object.entries(data.thresholds || {})
       .map(([name, result]) => ({ name, passed: result.ok }))] *)
Definition thresholdResults (d : Summary) : list (string * bool) :=
  map (fun '(name, result) => (name, ok result)) (default [] (thresholds d)).

Definition passedThresholds (d : Summary) : nat :=
  length (filter (fun t => snd t = true) (thresholdResults d)).

Definition failedThresholds (d : Summary) : nat :=
  length (filter (fun t => snd t = false) (thresholdResults d)).

Definition check_row (c : CheckEntry) : string * Z * Z :=
  (check_name c, default 0 (check_passes c), default 0 (check_fails c)).

Fixpoint collect_group (g : Group) : list (string * Z * Z) :=
  match g with
  | mkGroup cs gs =>
      match cs with
      | Some l => map check_row l
      | None => []
      end ++
      match gs with
      | Some l => flat_map collect_group l
      | None => []
      end
  end.

(** [collectAllChecks(group)] *)
Definition collectAllChecks (g : option Group) : list (string * Z * Z) :=
  match g with
  | Some g => collect_group g
  | None => []
  end.

Definition check_cells (c : string * Z * Z) : list Cell :=
  let '(name, passes, fails) := c in
  let total := (passes + fails)%Z in
  let rate :=
    if Z.ltb 0 total then (inject_Z passes / inject_Z total * 100)%Q else 0%Q in
  [ {| source := CheckName name; shown := Txt name |};
    {| source := CheckPasses name; shown := Num (inject_Z passes) |};
    {| source := CheckFails name; shown := Num (inject_Z fails) |};
    {| source := CheckRate name; shown := Num rate |};
    {| source := CheckVerdict name; shown := Badge (Z.eqb fails 0) |} ].

Definition http_phases : list string :=
  ["http_req_blocked"; "http_req_connecting"; "http_req_tls_handshaking";
   "http_req_sending"; "http_req_waiting"; "http_req_receiving";
   "http_req_duration"].

Definition generateHtmlReport (d : Summary) (testName : string) : Report :=
  {| summary_cards :=
       [ {| source := Stat "http_req_failed" "rate";
            shown := Num ((1 - or_zero (stat_of d "http_req_failed" "rate")) * 100)%Q |};
         number_cell d "http_reqs" "count";
         number_cell d "http_req_duration" "avg";
         number_cell d "http_req_duration" "p(95)";
         number_cell d "http_reqs" "rate";
         number_cell d "vus" "max" ];
     response_time :=
       map (number_cell d "http_req_duration")
           ["min"; "avg"; "med"; "p(90)"; "p(95)"; "p(99)"; "max"];
     threshold_section :=
       {| source := ThresholdCount true;
          shown := Num (inject_Z (Z.of_nat (passedThresholds d))) |} ::
       {| source := ThresholdCount false;
          shown := Num (inject_Z (Z.of_nat (failedThresholds d))) |} ::
       map (fun t => {| source := ThresholdVerdict (fst t); shown := Badge (snd t) |})
           (thresholdResults d);
     execution_info :=
       [ {| source := TestName; shown := Txt testName |};
         number_cell d "iterations" "count";
         number_cell d "iterations" "rate";
         number_cell d "http_reqs" "count";
         number_cell d "http_reqs" "rate";
         number_cell d "vus" "max";
         {| source := Stat "scenario_failures" "rate";
            shown := Num (or_zero (stat_of d "scenario_failures" "rate") * 100)%Q |} ];
     api_detail :=
       map (fun name =>
              {| source := MetricName name; shown := Txt (formatMetricName name) |} ::
              map (ms_cell d name) ["avg"; "med"; "min"; "max"; "p(90)"; "p(95)"])
           (filter (fun name => is_Some (metrics d !! name)) durationMetricNames);
     http_detail :=
       map (fun name => map (ms_cell d name) ["avg"; "med"; "p(95)"; "max"]) http_phases;
     check_detail := map check_cells (collectAllChecks (root_group d));
     raw_data := metrics d |}.




(** ** Reading the helpers *)

(** The verdict [check] records for a predicate. *)
Definition verdict (p : Pred) (r : Response) : bool :=
  match p r with
  | Return v => truthy v
  | Throw _ => false
  end.

Definition verdicts (preds : list (string * Pred)) (r : Response) : list (string * bool) :=
  map (fun np => (fst np, verdict (snd np) r)) preds.

Definition passes (preds : list (string * Pred)) (r : Response) : bool :=
  forallb (fun np => verdict (snd np) r) preds.

(** A predicate that answers on every response. *)
Definition total_pred (p : Pred) : Prop := forall r, exists v, p r = Return v.

(** [JSON.parse(response.body).data.fld], [undefined] when it cannot be
    read. *)
Definition data_field (fld : string) (r : Response) : JSVal :=
  match obind (JSON_parse (body r)) (fun b =>
          obind (get_prop b "data") (fun d => get_prop d fld)) with
  | Return v => v
  | Throw _ => VUndefined
  end.

Definition data_of (r : Response) : JSVal :=
  match obind (JSON_parse (body r)) (fun b => get_prop b "data") with
  | Return v => v
  | Throw _ => VUndefined
  end.


(** The helpers that take a required field out of the response body. *)
Inductive Extractor : Type :=
| ExLogin (email password : string)
| ExRefreshToken (cookies_ : JSVal)
| ExSignup
| ExGetProfile (accessToken : JSVal)
| ExCreateSchedule (accessToken dayPlanId : JSVal)
| ExGetSchedulesByDate (accessToken : JSVal) (date : option string)
| ExGetDayPlanId (accessToken : JSVal) (date : option string).

Definition extract (x : Extractor) : K6 JSVal :=
  match x with
  | ExLogin email password => login email password
  | ExRefreshToken c => refreshToken c
  | ExSignup => signup
  | ExGetProfile t => getProfile t
  | ExCreateSchedule t d => createSchedule t d
  | ExGetSchedulesByDate t d => getSchedulesByDate t d
  | ExGetDayPlanId t d => getDayPlanId t d
  end.

(** The field of [data] that the check of each helper tests.  For
    [signup] it is [userId]: the check does not look at the
    [accessToken] that [signup] also returns. *)
Definition checked_field (x : Extractor) : string :=
  match x with
  | ExLogin _ _ | ExRefreshToken _ => "accessToken"
  | ExSignup => "userId"
  | ExGetProfile _ => "email"
  | ExCreateSchedule _ _ => "scheduleId"
  | ExGetSchedulesByDate _ _ | ExGetDayPlanId _ _ => "dayPlanId"
  end.


(** The name under which the failed extraction is recorded. *)
Definition extraction_check (x : Extractor) : string :=
  match x with
  | ExLogin _ _ => "login: has access token"
  | ExRefreshToken _ => "refresh: has new access token"
  | ExSignup => "signup: has user id"
  | ExGetProfile _ => "get_profile: has user data"
  | ExCreateSchedule _ _ => "create_schedule: has schedule id"
  | ExGetSchedulesByDate _ _ | ExGetDayPlanId _ _ =>
      "get_schedules_by_date: has dayPlanId"
  end.

(** Every exported helper that talks to the server, with its arguments. *)
Inductive Call : Type :=
| CallLogin (email password : string)
| CallRefreshToken (cookies_ : JSVal)
| CallLogout (accessToken : JSVal)
| CallSignup
| CallGetProfile (accessToken : JSVal)
| CallSearchUsers (accessToken : JSVal) (nickname : string) (page size : Z)
| CallCreateSchedule (accessToken dayPlanId : JSVal)
| CallGetSchedules (accessToken dayPlanId : JSVal) (page size : Z)
| CallGetSchedulesByDate (accessToken : JSVal) (date : option string)
| CallGetDayPlanId (accessToken : JSVal) (date : option string)
| CallUpdateSchedule (accessToken scheduleId : JSVal)
| CallDeleteSchedule (accessToken scheduleId : JSVal)
| CallUpdateScheduleStatus (accessToken scheduleId : JSVal) (status_ : string)
| CallAiScheduleArrangement (accessToken dayPlanId : JSVal)
| CallGetNotifications (accessToken : JSVal) (page size : Z)
| CallRegisterFcmToken (accessToken : JSVal) (fcmToken platform : string)
| CallHealthCheck.

Definition discard {A} (m : K6 A) : K6 unit := m;; ret tt.

Definition invoke (c : Call) : K6 unit :=
  match c with
  | CallLogin e p => discard (login e p)
  | CallRefreshToken k => discard (refreshToken k)
  | CallLogout t => logout t
  | CallSignup => discard signup
  | CallGetProfile t => discard (getProfile t)
  | CallSearchUsers t n p z => discard (searchUsers t n p z)
  | CallCreateSchedule t d => discard (createSchedule t d)
  | CallGetSchedules t d p z => discard (getSchedules t d p z)
  | CallGetSchedulesByDate t d => discard (getSchedulesByDate t d)
  | CallGetDayPlanId t d => discard (getDayPlanId t d)
  | CallUpdateSchedule t i => discard (updateSchedule t i)
  | CallDeleteSchedule t i => discard (deleteSchedule t i)
  | CallUpdateScheduleStatus t i st => discard (updateScheduleStatus t i st)
  | CallAiScheduleArrangement t d => discard (aiScheduleArrangement t d)
  | CallGetNotifications t p z => discard (getNotifications t p z)
  | CallRegisterFcmToken t f p => discard (registerFcmToken t f p)
  | CallHealthCheck => discard healthCheck
  end.

(** The Trend metric a helper feeds, for those that feed one. *)
Definition trend_of (c : Call) : option string :=
  match c with
  | CallLogin _ _ => Some loginDuration
  | CallRefreshToken _ => Some refreshTokenDuration
  | CallSignup => Some signupDuration
  | CallGetProfile _ => Some getProfileDuration
  | CallSearchUsers _ _ _ _ => Some searchUsersDuration
  | CallCreateSchedule _ _ => Some createScheduleDuration
  | CallGetSchedules _ _ _ _ => Some getSchedulesDuration
  | CallGetSchedulesByDate _ _ => Some getSchedulesDuration
  | CallGetDayPlanId _ _ => Some getSchedulesDuration
  | CallUpdateSchedule _ _ => Some updateScheduleDuration
  | CallDeleteSchedule _ _ => Some deleteScheduleDuration
  | CallAiScheduleArrangement _ _ => Some aiArrangementDuration
  | CallLogout _ | CallUpdateScheduleStatus _ _ _ | CallGetNotifications _ _ _
  | CallRegisterFcmToken _ _ _ | CallHealthCheck => None
  end.

(** A request built from the configuration [c]: its URL starts with the
    base URL of [c], its timeout is one of the two of [c], and its
    headers, when it has any, are the default headers of [c], with the
    bearer token added on authenticated calls. *)
Definition built_from (c : Config) (req : Request) : Prop :=
  req_base req = BASE_URL c /\
  (req_timeout req = timeout_default (TIMEOUTS c) \/
   req_timeout req = timeout_ai_related (TIMEOUTS c)) /\
  (req_headers req = None \/
   req_headers req = Some (DEFAULT_HEADERS c) \/
   exists accessToken, req_headers req = Some (auth_headers c accessToken)).

(** The text [randomString] draws from the world, starting at draw [i]. *)
Fixpoint random_chars (w : World) (i n : nat) : string :=
  match n with
  | O => ""
  | S k => charAt chars (Qfloor (random w i * 36)) +:+ random_chars w (S i) k
  end.

(** The state a helper leaves behind: it drew [n_rand] random numbers
    and read the clock [n_clk] times to build its request, issued [req],
    fed the duration of the answer [r] to its Trend when it has one, and
    recorded the verdicts of its checks on [r]. *)
Definition exchanged (n_rand n_clk : nat) (req : Request) (trend : option string)
    (preds : list (string * Pred)) (r : Response) (s : State) : State :=
  {| cfg := cfg s;
     n_http := S (n_http s);
     n_random := (n_rand + n_random s)%nat;
     n_clock := (n_clk + n_clock s)%nat;
     requests := requests s ++ [req];
     trends :=
       match trend with
       | Some name =>
           <[name := default [] (trends s !! name) ++ [timings_duration r]]> (trends s)
       | None => trends s
       end;
     rates := rates s;
     checks := checks s ++ verdicts preds r;
     sleeps := sleeps s |}.

(** The request of each call, under configuration [c], for a call made
    when the clock has been read [k] times. *)
Definition request_of (c : Config) (w : World) (k : nat) (call : Call) : Request :=
  let plain m path tag :=
    {| req_method := m; req_base := BASE_URL c; req_path := path;
       req_headers := Some (DEFAULT_HEADERS c); req_tag := tag;
       req_timeout := timeout_default (TIMEOUTS c) |} in
  let authed m path tok tag :=
    {| req_method := m; req_base := BASE_URL c; req_path := path;
       req_headers := Some (auth_headers c tok); req_tag := tag;
       req_timeout := timeout_default (TIMEOUTS c) |} in
  match call with
  | CallLogin _ _ => plain POST [Lit "/token"] "login"
  | CallRefreshToken _ => plain PUT [Lit "/token"] "refresh_token"
  | CallLogout t => authed DEL [Lit "/token"] t "logout"
  | CallSignup => plain POST [Lit "/users"] "signup"
  | CallGetProfile t => authed GET [Lit "/users"] t "get_profile"
  | CallSearchUsers t n p z =>
      authed GET
        [Lit "/users/nickname?nickname="; Val (VStr n);
         Lit "&page="; Val (VNum (inject_Z p)); Lit "&size="; Val (VNum (inject_Z z))]
        t "search_users"
  | CallCreateSchedule t d =>
      authed POST [Lit "/day-plan/"; Val d; Lit "/schedule"] t "create_schedule"
  | CallGetSchedules t d p z =>
      authed GET
        [Lit "/day-plan/schedule?date="; Val (VStr (iso_day (clock w k)));
         Lit "&page="; Val (VNum (inject_Z p)); Lit "&size="; Val (VNum (inject_Z z))]
        t "get_schedules"
  | CallGetSchedulesByDate t date | CallGetDayPlanId t date =>
      authed GET
        [Lit "/day-plan/schedule?date=";
         Val (VStr match date with
                   | Some d => if String.eqb d "" then iso_day (clock w k) else d
                   | None => iso_day (clock w k)
                   end);
         Lit "&page=1&size=10"]
        t "get_schedules_by_date"
  | CallUpdateSchedule t i => authed PUT [Lit "/schedule/"; Val i] t "update_schedule"
  | CallDeleteSchedule t i => authed DEL [Lit "/schedule/"; Val i] t "delete_schedule"
  | CallUpdateScheduleStatus t i _ =>
      authed PATCH [Lit "/schedule/"; Val i; Lit "/status"] t "update_schedule_status"
  | CallAiScheduleArrangement t d =>
      {| req_method := POST; req_base := BASE_URL c;
         req_path := [Lit "/day-plan/"; Val d; Lit "/schedules/ai-arrangement"];
         req_headers := Some (auth_headers c t); req_tag := "ai_arrangement";
         req_timeout := timeout_ai_related (TIMEOUTS c) |}
  | CallGetNotifications t p z =>
      authed GET
        [Lit "/notifications?page="; Val (VNum (inject_Z p));
         Lit "&size="; Val (VNum (inject_Z z))]
        t "get_notifications"
  | CallRegisterFcmToken t _ _ => authed POST [Lit "/fcm-tokens"] t "register_fcm_token"
  | CallHealthCheck =>
      {| req_method := GET; req_base := BASE_URL c; req_path := [Lit "/"];
         req_headers := None; req_tag := "health_check";
         req_timeout := timeout_default (TIMEOUTS c) |}
  end.

(** The tag under which each call is reported. *)
Definition tag_of (call : Call) : string :=
  match call with
  | CallLogin _ _ => "login"
  | CallRefreshToken _ => "refresh_token"
  | CallLogout _ => "logout"
  | CallSignup => "signup"
  | CallGetProfile _ => "get_profile"
  | CallSearchUsers _ _ _ _ => "search_users"
  | CallCreateSchedule _ _ => "create_schedule"
  | CallGetSchedules _ _ _ _ => "get_schedules"
  | CallGetSchedulesByDate _ _ | CallGetDayPlanId _ _ => "get_schedules_by_date"
  | CallUpdateSchedule _ _ => "update_schedule"
  | CallDeleteSchedule _ _ => "delete_schedule"
  | CallUpdateScheduleStatus _ _ _ => "update_schedule_status"
  | CallAiScheduleArrangement _ _ => "ai_arrangement"
  | CallGetNotifications _ _ _ => "get_notifications"
  | CallRegisterFcmToken _ _ _ => "register_fcm_token"
  | CallHealthCheck => "health_check"
  end.

(** The checks each call runs on the answer. *)
Definition checks_of (call : Call) : list (string * Pred) :=
  match call with
  | CallLogin _ _ => login_checks
  | CallRefreshToken _ => refreshToken_checks
  | CallLogout _ => logout_checks
  | CallSignup => signup_checks
  | CallGetProfile _ => getProfile_checks
  | CallSearchUsers _ _ _ _ => searchUsers_checks
  | CallCreateSchedule _ _ => createSchedule_checks
  | CallGetSchedules _ _ _ _ => getSchedules_checks
  | CallGetSchedulesByDate _ _ | CallGetDayPlanId _ _ => getSchedulesByDate_checks
  | CallUpdateSchedule _ _ => updateSchedule_checks
  | CallDeleteSchedule _ _ => deleteSchedule_checks
  | CallUpdateScheduleStatus _ _ _ => updateScheduleStatus_checks
  | CallAiScheduleArrangement _ _ => aiScheduleArrangement_checks
  | CallGetNotifications _ _ _ => getNotifications_checks
  | CallRegisterFcmToken _ _ _ => registerFcmToken_checks
  | CallHealthCheck => healthCheck_checks
  end.

(** Random draws and clock readings a call makes before its request. *)
Definition draws_of (call : Call) : nat * nat :=
  match call with
  | CallSignup => (8, 1)%nat
  | CallCreateSchedule _ _ => (6, 2)%nat
  | CallGetSchedules _ _ _ _ => (0, 1)%nat
  | CallGetSchedulesByDate _ date | CallGetDayPlanId _ date =>
      match date with
      | Some d => if String.eqb d "" then (0, 1)%nat else (0, 0)%nat
      | None => (0, 1)%nat
      end
  | _ => (0, 0)%nat
  end.

(** The state after a call that was answered with [r]. *)
Definition after_call (call : Call) (w : World) (s : State) : State :=
  let r := http w (n_http s) in
  let st :=
    exchanged (fst (draws_of call)) (snd (draws_of call))
      (request_of (cfg s) w (n_clock s) call) (trend_of call) (checks_of call) r s in
  match call with
  | CallLogin _ _ => add_rate loginFailRate (negb (passes login_checks r)) st
  | _ => st
  end.

Definition call_of (x : Extractor) : Call :=
  match x with
  | ExLogin e p => CallLogin e p
  | ExRefreshToken k => CallRefreshToken k
  | ExSignup => CallSignup
  | ExGetProfile t => CallGetProfile t
  | ExCreateSchedule t d => CallCreateSchedule t d
  | ExGetSchedulesByDate t d => CallGetSchedulesByDate t d
  | ExGetDayPlanId t d => CallGetDayPlanId t d
  end.

(** What an extracting helper returns when its checks passed on [r]. *)
Definition value_of (x : Extractor) (r : Response) : JSVal :=
  match x with
  | ExLogin _ _ | ExRefreshToken _ =>
      VObj [("accessToken", data_field "accessToken" r); ("cookies", cookies r)]
  | ExSignup =>
      VObj [("userId", data_field "userId" r);
            ("accessToken", data_field "accessToken" r);
            ("cookies", cookies r)]
  | ExGetProfile _ | ExCreateSchedule _ _ => data_of r
  | ExGetSchedulesByDate _ _ =>
      VObj [("dayPlanId", data_field "dayPlanId" r);
            ("schedules",
             if truthy (data_field "content" r) then data_field "content" r
             else VArr [])]
  | ExGetDayPlanId _ _ => data_field "dayPlanId" r
  end.

(** ** Reading the journeys *)

(** [accessToken] as the signup group leaves it when signup was answered
    with [r]. *)
Definition signup_token (r : Response) : JSVal :=
  if passes signup_checks r then data_field "accessToken" r else VNull.

(** [dayPlanId] as the load group leaves it when the day plan lookup was
    answered with [r]. *)
Definition day_plan_id (r : Response) : JSVal :=
  if passes getSchedulesByDate_checks r then data_field "dayPlanId" r else VNull.

(** [createdSchedule] when [createSchedule] was answered with [r]. *)
Definition created_schedule (r : Response) : JSVal :=
  if passes createSchedule_checks r then data_of r else VNull.

(** How far an iteration of the load and stress journeys gets in world
    [w] when its first request is the [n]-th of the run. *)
Inductive Progress : Type :=
| NoToken
| NoDayPlan
| NotCreated
| Completed.

Definition progress (w : World) (n : nat) : Progress :=
  if negb (truthy (signup_token (http w n))) then NoToken
  else if negb (truthy (day_plan_id (http w (2 + n)))) then NoDayPlan
  else if negb (truthy (created_schedule (http w (3 + n)))) then NotCreated
  else Completed.

(** What the iteration adds to [scenario_failures]. *)
Definition recorded_failure (p : Progress) : bool :=
  match p with
  | Completed => false
  | _ => true
  end.

(** The helpers load-test.js calls, in order. *)
Definition load_test_tags (p : Progress) : list string :=
  match p with
  | NoToken => ["signup"]
  | NoDayPlan => ["signup"; "get_profile"; "get_schedules_by_date"]
  | NotCreated =>
      ["signup"; "get_profile"; "get_schedules_by_date"; "create_schedule";
       "get_schedules"; "search_users"; "get_notifications"; "logout"]
  | Completed =>
      ["signup"; "get_profile"; "get_schedules_by_date"; "create_schedule";
       "get_schedules"; "update_schedule_status"; "search_users";
       "get_notifications"; "delete_schedule"; "logout"]
  end.

(** The helpers stress-test.js calls, in order. *)
Definition stress_test_tags (p : Progress) : list string :=
  match p with
  | NoToken => ["signup"]
  | NoDayPlan => ["signup"; "get_profile"; "get_schedules_by_date"]
  | NotCreated =>
      ["signup"; "get_profile"; "get_schedules_by_date"; "create_schedule";
       "get_schedules"; "logout"]
  | Completed =>
      ["signup"; "get_profile"; "get_schedules_by_date"; "create_schedule";
       "get_schedules"; "delete_schedule"; "logout"]
  end.

(** What an iteration did, seen from outside: the helpers it called
    after state [s], in order, and the sample it added to
    [scenario_failures]. *)
Definition iteration_did (s s' : State) (tags : list string) (failed : bool) : Prop :=
  tags_since s s' = tags /\
  rates s' = <[scenarioFailRate := default [] (rates s !! scenarioFailRate) ++ [failed]]>
               (rates s).

(** The scripts whose lifecycle hooks are the health-check [setup]. *)
Inductive Script : Type := LoadTest | StressTest | SpikeTest.

Definition default_of (script : Script) : K6 unit :=
  match script with
  | LoadTest => load_test_default
  | StressTest => stress_test_default
  | SpikeTest => spike_test_default
  end.

Definition testType_of (script : Script) : string :=
  match script with
  | LoadTest => "load"
  | StressTest => "stress"
  | SpikeTest => "spike"
  end.

(** The checks a helper runs, by the tag of its request. *)
Definition checks_for (tag : string) : list (string * Pred) :=
  if String.eqb tag "login" then login_checks
  else if String.eqb tag "refresh_token" then refreshToken_checks
  else if String.eqb tag "logout" then logout_checks
  else if String.eqb tag "signup" then signup_checks
  else if String.eqb tag "get_profile" then getProfile_checks
  else if String.eqb tag "search_users" then searchUsers_checks
  else if String.eqb tag "create_schedule" then createSchedule_checks
  else if String.eqb tag "get_schedules" then getSchedules_checks
  else if String.eqb tag "get_schedules_by_date" then getSchedulesByDate_checks
  else if String.eqb tag "update_schedule" then updateSchedule_checks
  else if String.eqb tag "delete_schedule" then deleteSchedule_checks
  else if String.eqb tag "update_schedule_status" then updateScheduleStatus_checks
  else if String.eqb tag "ai_arrangement" then aiScheduleArrangement_checks
  else if String.eqb tag "get_notifications" then getNotifications_checks
  else if String.eqb tag "register_fcm_token" then registerFcmToken_checks
  else if String.eqb tag "health_check" then healthCheck_checks
  else [].

(** The steps of the cleanup groups: deleting the created schedule and
    logging out. *)
Definition cleanup_step (tag : string) : bool :=
  String.eqb tag "delete_schedule" || String.eqb tag "logout".

(** The fail-fast rule as the specification words it: once a step of an
    iteration has failed, only best-effort steps are invoked after it.
    The [i]-th step of an iteration that starts in state [s] is answered
    by the [(i + n_http s)]-th response of the world. *)
Definition spec_fail_fast (default : K6 unit) : Prop :=
  forall (w : World) (s : State) (i : nat) (tag later : string),
    let steps := tags_since s (fst (default w s)) in
    steps !! i = Some tag ->
    passes (checks_for tag) (http w (i + n_http s)) = false ->
    later ∈ drop (S i) steps ->
    cleanup_step later = true.

(** The best-effort rule as the specification words it: when creating
    the resource failed, the delete step is invoked all the same. *)
Definition spec_cleanup_after_failure (default : K6 unit) : Prop :=
  forall (w : World) (s : State),
    let steps := tags_since s (fst (default w s)) in
    progress w (n_http s) = NotCreated ->
    invocations "delete_schedule" steps = 1%nat.

(** ** Reading the report *)




(** A series without samples: the summary has no values for it. *)
Definition no_samples (d : Summary) (name : string) : Prop :=
  match metrics d !! name with
  | None => True
  | Some m => values m = None
  end.

(** The no-data rule as the specification words it: the verdict shown
    for a rule on a series without samples is neither a pass nor the
    failure shown for a series with samples. *)
Definition spec_no_data_outcome (d : Summary) (testName : string) : Prop :=
  forall (name : string) (result : ThresholdResult) (c : Cell),
    (name, result) ∈ default [] (thresholds d) ->
    no_samples d name ->
    c ∈ threshold_section (generateHtmlReport d testName) ->
    source c = ThresholdVerdict name ->
    shown c <> Badge true /\ shown c <> Badge false.

(** *** Sample summaries *)

Definition trend_values (avg med p90 p95 : Q) : Metric :=
  {| values := Some (<["avg" := avg]> (<["med" := med]> (<["min" := 12%Q]>
                 (<["max" := 4100%Q]> (<["p(90)" := p90]> (<["p(95)" := p95]> ∅)))))) |}.

(** A run in which no signup and no login was ever answered: their
    series are empty, the other metrics are there. *)
Definition summary_without_signups : Summary :=
  {| metrics :=
       <["http_req_duration" := trend_values 310 240 900 1200]>
       (<["iterations" := {| values := Some (<["count" := 40%Q]> (<["rate" := 2%Q]> ∅)) |}]>
       (<["http_reqs" := {| values := Some (<["count" := 40%Q]> (<["rate" := 2%Q]> ∅)) |}]>
       (<["scenario_failures" :=
            {| values := Some (<["rate" := 1%Q]> (<["passes" := 40%Q]>
                                (<["fails" := 0%Q]> ∅))) |}]> ∅)));
     thresholds :=
       Some [("signup_duration", {| ok := true |});
             ("login_duration", {| ok := false |});
             ("http_req_duration", {| ok := false |})];
     root_group := Some (mkGroup (Some []) (Some [
       mkGroup (Some [ {| check_name := "signup: status is 201";
                          check_passes := None; check_fails := Some 40 |} ]) None ])) |}.

(** ** Percentiles *)

Definition Qle_dec (x y : Q) : Decision (x <= y)%Q.
Proof.
  destruct (Qle_bool x y) eqn:H.
  - left. now apply Qle_bool_iff.
  - right. intros Hle. apply Qle_bool_iff in Hle. congruence.
Defined.

#[local] Instance Qle_rel_dec : RelDecision Qle := Qle_dec.

#[local] Instance Qle_transitive : Transitive Qle.
Proof. intros x y z. apply Qle_trans. Qed.

#[local] Instance Qle_total : Total Qle.
Proof.
  intros x y. destruct (Qlt_le_dec x y) as [H|H]; [left; now apply Qlt_le_weak | now right].
Qed.

(** Modelled from the spec: the percentile query of the metric sink
    (§4.1).  The percentiles of the repository's series are computed by
    the Trend objects of k6, whose code is not part of it; the report
    only prints them.  Of the two methods the specification names, the
    nearest-rank method is taken: the p-th percentile of n samples is
    the sample of rank ceil(p * n / 100) in ascending order. *)
Definition rank (p n : nat) : nat := ((p * n + 99) / 100)%nat.

Definition percentile (p : nat) (samples : list Q) : option Q :=
  merge_sort Qle samples !! (rank p (length samples) - 1)%nat.

Definition p50 := percentile 50.
Definition p90 := percentile 90.
Definition p95 := percentile 95.
Definition p99 := percentile 99.

(** ** What a script can do to the state *)

(** The states a script can reach from [s]: it calls helpers and feeds
    metrics, sleeps, draws random numbers and reads the clock. *)
Inductive reaches (s : State) : State -> Prop :=
| reaches_refl : reaches s s
| reaches_call c w s1 : reaches s s1 -> reaches s (after_call c w s1)
| reaches_sleep q s1 : reaches s s1 -> reaches s (add_sleep q s1)
| reaches_random k s1 : reaches s s1 -> reaches s (use_random k s1)
| reaches_clock k s1 : reaches s s1 -> reaches s (use_clock k s1)
| reaches_rate k b s1 : reaches s s1 -> reaches s (add_rate k b s1)
| reaches_trend k v s1 : reaches s s1 -> reaches s (add_trend k v s1).

(** ** The other scripts *)

(** *** spike-test.js: what an iteration does *)

(** Whether the iteration creates a schedule: it has a day plan and the
    draw after the eight of [signup] is below 0.2. *)
Definition spike_creates (w : World) (s : State) : bool :=
  truthy (day_plan_id (http w (2 + n_http s))) &&
  Qltb (random w (8 + n_random s)) (2 # 10).

(** The draw that decides on the logout. *)
Definition spike_logout_draw (w : World) (s : State) : Q :=
  if negb (truthy (day_plan_id (http w (2 + n_http s)))) then random w (8 + n_random s)
  else if Qltb (random w (8 + n_random s)) (2 # 10) then random w (19 + n_random s)
  else random w (9 + n_random s).

(** The helpers spike-test.js calls, in order. *)
Definition spike_test_tags (w : World) (s : State) : list string :=
  if negb (truthy (signup_token (http w (n_http s)))) then ["signup"]
  else
    ["signup"; "get_profile"; "get_schedules_by_date"] ++
    (if spike_creates w s then
       "create_schedule" ::
       (if truthy (created_schedule (http w (3 + n_http s)))
        then ["delete_schedule"] else [])
     else []) ++
    (if Qltb (spike_logout_draw w s) (5 # 10) then ["logout"] else []).

(** *** helpers.js: test accounts *)

Section SignupTestUser.

(** [response.body.includes(text)] on a body that is a string; [Body]
    keeps what the text parses to, not the text. *)
Variable body_includes : Response -> string -> bool.

Definition signupTestUser (email password nickname : string) : K6 bool :=
  let* c := get_cfg in
  let* response :=
    http_request POST (BASE_URL c) [Lit "/users"] (Some (DEFAULT_HEADERS c))
      "setup_signup" (timeout_default (TIMEOUTS c)) in
  if Z.eqb (status response) 200 then ret true
  else if Z.eqb (status response) 409 then ret true
  else
    match body response with
    | BodyNull => throw TypeError
    | BodyText _ => ret (body_includes response "DUPLICATE")
    end.

End SignupTestUser.

(** ** load-test2.js *)

Definition NUM_TEST_ACCOUNTS : nat := 100.

Record Account : Type := mkAccount {
  account_email : string;
  account_password : string;
  account_nickname : string;
}.

Definition generateTestAccount (index : nat) : Account :=
  {| account_email := "loadtest_prod_" +:+ pretty index +:+ "@test.com";
     account_password := "Test1234!";
     account_nickname := "LoadUser" +:+ pretty index |}.

Record SetupData : Type := mkSetupData {
  accounts : list Account;
  data_testType : string;
}.

Section LoadTest2.

Variable body_includes : Response -> string -> bool.

(** The account loop of [setup], from index [i] on, [n] accounts to go. *)
Fixpoint create_accounts (i n : nat) (accounts : list Account) (successCount : nat)
    : K6 (list Account * nat) :=
  match n with
  | O => ret (accounts, successCount)
  | S k =>
      let account := generateTestAccount i in
      let* created :=
        signupTestUser body_includes (account_email account) (account_password account)
          (account_nickname account) in
      let successCount := if created then S successCount else successCount in
      let accounts := accounts ++ [account] in
      (if Nat.eqb (i mod 10) 9 then sleep 1 else ret tt);;
      create_accounts (S i) k accounts successCount
  end.

Definition load_test2_setup : K6 SetupData :=
  let* isHealthy := healthCheck in
  if negb isHealthy then throw (Error "Server health check failed")
  else
    let* (accounts, successCount) := create_accounts 0 NUM_TEST_ACCOUNTS [] 0 in
    let* startTime := new_Date in
    ret {| accounts := accounts; data_testType := "load-production" |}.

End LoadTest2.

(** The login group: [account] is
    [data.accounts[(__VU - 1) % data.accounts.length]], and reading
    [account.email] of [undefined] is a TypeError. *)
Definition login_group (account : option Account) : K6 (bool * JSVal) :=
  group "01_Login" (
    match account with
    | None => throw TypeError
    | Some a =>
        let* loginResult := login (account_email a) (account_password a) in
        if negb (truthy loginResult) then ret (false, VNull)
        else
          let* accessToken := lift (get_prop loginResult "accessToken") in
          ret (true, accessToken)
    end).

Definition load_test2_default (vu : Z) (data : SetupData) : K6 unit :=
  let* scenarioStart := new_Date in
  let account := selectTestUser (accounts data) vu in
  let* (scenarioSuccess, accessToken) := login_group account in
  if negb (truthy accessToken) then rate_add scenarioFailRate true
  else
    thinkTime (1 # 2) 1;;
    let* dayPlanId :=
      group "02_Get_DayPlan" (
        let* scheduleInfo := getSchedulesByDate accessToken None in
        dayPlanId_of scheduleInfo) in
    if negb (truthy dayPlanId) then
      rate_add scenarioFailRate true;;
      logout accessToken
    else
      thinkTime (1 # 2) 1;;
      let* (scenarioSuccess, createdSchedule) :=
        group "03_Schedule_Create" (
          let* title := randomString 5 in
          let* startAt := getCurrentTime in
          let* endAt := getTimeAfterMinutes 60 in
          let* focusLevel := Math_random in
          let* createdSchedule := createSchedule accessToken dayPlanId in
          ret (if negb (truthy createdSchedule) then false else scenarioSuccess,
               createdSchedule)) in
      thinkTime (1 # 2) 1;;
      group "04_Schedule_List" (
        getSchedules accessToken dayPlanId 1 10;;
        ret tt);;
      thinkTime (1 # 2) 1;;
      group "05_Schedule_Delete" (delete_if_created accessToken createdSchedule);;
      thinkTime (3 # 10) (1 # 2);;
      group "06_Logout" (logout accessToken);;
      record_scenario scenarioStart scenarioSuccess;;
      sleep (1 # 2).

(** The state after [signupTestUser] was answered. *)
Definition after_setup_signup (s : State) : State :=
  add_request
    {| req_method := POST; req_base := BASE_URL (cfg s); req_path := [Lit "/users"];
       req_headers := Some (DEFAULT_HEADERS (cfg s)); req_tag := "setup_signup";
       req_timeout := timeout_default (TIMEOUTS (cfg s)) |} s.

(** A response on which [signupTestUser] reads the text of an absent body. *)
Definition breaks_signupTestUser (r : Response) : bool :=
  negb (Z.eqb (status r) 200) && negb (Z.eqb (status r) 409) &&
  match body r with
  | BodyNull => true
  | BodyText _ => false
  end.

(** [accessToken] as the login group leaves it when the login was
    answered with [r]. *)
Definition login_token (r : Response) : JSVal :=
  if passes login_checks r then data_field "accessToken" r else VNull.

(** How far an iteration of load-test2.js gets when its first request is
    the [n]-th of the run. *)
Definition progress2 (w : World) (n : nat) : Progress :=
  if negb (truthy (login_token (http w n))) then NoToken
  else if negb (truthy (day_plan_id (http w (1 + n)))) then NoDayPlan
  else if negb (truthy (created_schedule (http w (2 + n)))) then NotCreated
  else Completed.

(** The helpers load-test2.js calls, in order. *)
Definition load_test2_tags (p : Progress) : list string :=
  match p with
  | NoToken => ["login"]
  | NoDayPlan => ["login"; "get_schedules_by_date"; "logout"]
  | NotCreated =>
      ["login"; "get_schedules_by_date"; "create_schedule"; "get_schedules"; "logout"]
  | Completed =>
      ["login"; "get_schedules_by_date"; "create_schedule"; "get_schedules";
       "delete_schedule"; "logout"]
  end.

(** *** breakpoint-test.js *)

Definition breakpoint_test_default : K6 unit :=
  let* scenarioStart := new_Date in
  let* (scenarioSuccess, accessToken) := signup_group "signup" in
  if negb (truthy accessToken) then
    rate_add scenarioFailRate true;;
    let* now := new_Date in
    trend_add fullScenarioDuration (epoch_ms now - epoch_ms scenarioStart)%Q
  else
    group "core_operations" (
      getProfile accessToken;;
      let* scheduleInfo := getSchedulesByDate accessToken None in
      let* dayPlanId := dayPlanId_of scheduleInfo in
      let* create :=
        if truthy dayPlanId then
          let* r := Math_random in
          ret (Qltb r (5 # 10))
        else ret false in
      if create then
        let* title := randomString 4 in
        let* startAt := getCurrentTime in
        let* endAt := getTimeAfterMinutes 30 in
        let* schedule := createSchedule accessToken dayPlanId in
        delete_if_created accessToken schedule
      else ret tt);;
    record_scenario scenarioStart scenarioSuccess.

(** The helpers breakpoint-test.js calls, in order. *)
Definition breakpoint_test_tags (w : World) (s : State) : list string :=
  if negb (truthy (signup_token (http w (n_http s)))) then ["signup"]
  else
    ["signup"; "get_profile"; "get_schedules_by_date"] ++
    (if truthy (day_plan_id (http w (2 + n_http s))) &&
        Qltb (random w (8 + n_random s)) (5 # 10)
     then
       "create_schedule" ::
       (if truthy (created_schedule (http w (3 + n_http s)))
        then ["delete_schedule"] else [])
     else []).

(** *** What a run leaves in the metrics *)

(** The samples of [scenario_failures] and of [full_scenario_duration]. *)
Definition scenario_failures (s : State) : list bool :=
  default [] (rates s !! scenarioFailRate).

Definition scenario_durations (s : State) : list Q :=
  default [] (trends s !! fullScenarioDuration).

(** An iteration that went past the day plan lookup runs to its end. *)
Definition ran_to_end (p : Progress) : bool :=
  match p with
  | NotCreated | Completed => true
  | NoToken | NoDayPlan => false
  end.

(** Whether an iteration of a script reaches the end of its function. *)
Definition reaches_the_end (script : Script) (w : World) (s : State) : bool :=
  match script with
  | LoadTest | StressTest => ran_to_end (progress w (n_http s))
  | SpikeTest => truthy (signup_token (http w (n_http s)))
  end.

(** *** report-generator.js: the remaining functions *)


(** [!x] on a number that may be [undefined]. *)
Definition falsy_number (x : option Q) : bool :=
  match x with
  | None => true
  | Some v => Qeq_bool v 0
  end.

(** [getPercentage(value, max)] *)
Definition getPercentage (value max : option Q) : Q :=
  if falsy_number value || falsy_number max then 0%Q
  else
    let p := (or_zero value / or_zero max * 100)%Q in
    if Qle_bool p 100 then p else 100%Q.


(** [.replace(/[:.]/g, '-')] *)
Fixpoint replace_colons_and_dots (s : string) : string :=
  match s with
  | EmptyString => EmptyString
  | String c rest =>
      String (if Ascii.eqb c ":" || Ascii.eqb c "." then "-"%char else c)
             (replace_colons_and_dots rest)
  end.

(** [iso.replace(/[:.]/g, '-').slice(0, 19)] *)
Definition timestamp_of (iso : string) : string :=
  String.substring 0 19 (replace_colons_and_dots iso).

Inductive Output : Type :=
| HtmlReport (r : Report)
| JsonDump (d : Summary)
| TextSummary (d : Summary).

(** [createReportOutput(data, testName)], where [iso] is what
    [new Date().toISOString()] gives when it is called.  The object
    literal is filled key by key, a later key replacing an equal earlier
    one. *)
Definition createReportOutput (d : Summary) (testName iso : string)
    : gmap string Output :=
  let reportDir := "k6-tests/reports" in
  let timestamp := timestamp_of iso in
  <["stdout" := TextSummary d]>
    (<[reportDir +:+ "/" +:+ testName +:+ "-" +:+ timestamp +:+ ".json" := JsonDump d]>
      (<[reportDir +:+ "/" +:+ testName +:+ "-" +:+ timestamp +:+ ".html"
           := HtmlReport (generateHtmlReport d testName)]> ∅)).


(** *** scenario-test.js: the power user *)








(** *** Reading a body, as the specification words it *)



(** *** More sample worlds *)




(** Every request is answered at once with status 200 and an empty list. *)
Definition world_idle : World :=
  {| http := fun _ => ok_empty; random := fun _ => 1 # 2; clock := sample_clock |}.

(** The server answers the health check and then times out on every
    request. *)
Definition world_down_after_health : World :=
  {| http := fun n =>
       match n with
       | 0%nat => ok_empty
       | _ => timed_out
       end;
     random := fun _ => 1 # 2;
     clock := sample_clock |}.

(** The text of no body mentions a duplicate. *)
Definition no_duplicates : Response -> string -> bool := fun _ _ => false.

(** * Properties *)

(** ** The monad *)

Lemma bind_run {A B} (m : K6 A) (k : A -> K6 B) w s s' a :
  m w s = (s', Return a) -> bind m k w s = k a w s'.
Proof. intros H. unfold bind. now rewrite H. Qed.

Lemma bind_throw {A B} (m : K6 A) (k : A -> K6 B) w s s' e :
  m w s = (s', Throw e) -> bind m k w s = (s', Throw e).
Proof. intros H. unfold bind. now rewrite H. Qed.

Lemma add_checks_nil s : add_checks [] s = s.
Proof. destruct s. unfold add_checks. cbn. now rewrite app_nil_r. Qed.

Lemma add_checks_app l1 l2 s :
  add_checks l2 (add_checks l1 s) = add_checks (l1 ++ l2) s.
Proof. unfold add_checks. cbn. now rewrite app_assoc. Qed.

(** ** Predicates never throw *)

Lemma has_data_field_total fld : total_pred (has_data_field fld).
Proof.
  intros r. unfold has_data_field, try_catch.
  destruct (obind _ _); eauto.
Qed.

Lemma status_is_total n : total_pred (status_is n).
Proof. intros r. unfold status_is. eauto. Qed.

Lemma status_is_either_total n m : total_pred (status_is_either n m).
Proof. intros r. unfold status_is_either. eauto. Qed.

Lemma faster_than_total q : total_pred (faster_than q).
Proof. intros r. unfold faster_than. eauto. Qed.

Create HintDb k6 discriminated.
#[local] Hint Resolve has_data_field_total status_is_total status_is_either_total
  faster_than_total : k6.

#[local] Hint Unfold login_checks refreshToken_checks logout_checks signup_checks
  getProfile_checks searchUsers_checks createSchedule_checks getSchedules_checks
  getSchedulesByDate_checks updateSchedule_checks deleteSchedule_checks
  updateScheduleStatus_checks aiScheduleArrangement_checks getNotifications_checks
  registerFcmToken_checks healthCheck_checks : k6.

Ltac total_checks :=
  autounfold with k6;
  repeat first [apply Forall_nil_2 | apply Forall_cons_2; [cbn [snd]; auto with k6|]].

Lemma check_run r preds w s :
  Forall (fun np => total_pred (snd np)) preds ->
  check r preds w s = (add_checks (verdicts preds r) s, Return (passes preds r)).
Proof.
  intros H. revert s. induction H as [|[name p] rest Hp _ IH]; intros s.
  - cbn. now rewrite add_checks_nil.
  - cbn [check]. destruct (Hp r) as [v Hv]. cbn in Hv.
    unfold bind at 1, lift. rewrite Hv.
    unfold bind at 1, record_check.
    unfold bind at 1. rewrite IH. unfold ret.
    rewrite add_checks_app. cbn. unfold verdict at 1 3. now rewrite Hv.
Qed.

Ltac run_check := erewrite bind_run by (apply check_run; total_checks).

(** What a passed field check tells about the body. *)
Lemma has_data_field_passed fld r :
  verdict (has_data_field fld) r = true ->
  exists b,
    JSON_parse (body r) = Return b /\ get_prop b "data" = Return (data_of r) /\
    (forall k, get_prop (data_of r) k = Return (data_field k r)) /\
    truthy (data_of r) = true /\ truthy (data_field fld r) = true.
Proof.
  unfold verdict, has_data_field, try_catch, js_and, data_of, data_field.
  destruct (JSON_parse (body r)) as [b|] eqn:Hb; cbn; [|discriminate].
  destruct (get_prop b "data") as [d|] eqn:Hd; cbn; [|discriminate].
  destruct (truthy d) eqn:Ht; cbn.
  - intros Hv. exists b. repeat split; auto.
    + intros k. destruct d; cbn in *; try discriminate; reflexivity.
    + destruct (get_prop d fld); [assumption | discriminate].
  - rewrite Ht. discriminate.
Qed.

Lemma passes_cons name p rest r :
  passes ((name, p) :: rest) r = verdict p r && passes rest r.
Proof. reflexivity. Qed.

Lemma data_field_read fld r b d v :
  JSON_parse (body r) = Return b -> get_prop b "data" = Return d ->
  get_prop d fld = Return v -> data_field fld r = v.
Proof. intros Hb Hd Hv. unfold data_field. rewrite Hb. cbn. rewrite Hd. cbn. now rewrite Hv. Qed.

Lemma data_of_read r b d :
  JSON_parse (body r) = Return b -> get_prop b "data" = Return d -> data_of r = d.
Proof. intros Hb Hd. unfold data_of. rewrite Hb. cbn. now rewrite Hd. Qed.


Lemma randomString_run n w s :
  randomString n w s = (use_random n s, Return (random_chars w (n_random s) n)).
Proof.
  revert s. induction n as [|n IH]; intros s.
  - cbn. unfold ret, use_random. destruct s; reflexivity.
  - cbn [randomString random_chars]. unfold bind at 1, Math_random.
    unfold bind at 1. rewrite IH. unfold ret. cbn [use_random n_random].
    unfold use_random. cbn. repeat f_equal. lia.
Qed.

Ltac run_random := erewrite bind_run by apply randomString_run.

Ltac state_eq :=
  unfold after_call, exchanged, add_rate, add_checks, add_trend, add_request,
    add_sleep, use_random, use_clock;
  cbn [cfg n_http n_random n_clock requests trends rates checks sleeps
       draws_of trend_of checks_of request_of fst snd];
  repeat f_equal; try lia; try reflexivity.

Ltac close_state := solve [reflexivity | f_equal; state_eq].

Ltac passed_field H :=
  autounfold with k6 in H; rewrite ?passes_cons in H;
  repeat match type of H with
         | (_ && _)%bool = true => let H1 := fresh in apply andb_prop in H as [H1 H]
         end.

Lemma randomEmail_run w s :
  exists email, randomEmail w s = (use_clock 1 (use_random 8 s), Return email).
Proof.
  unfold randomEmail. run_random. cbn [bind new_Date ret]. eauto.
Qed.

Ltac read_body :=
  let b := fresh "b" in
  let Hb := fresh "Hb" in
  let Hd := fresh "Hd" in
  let Hk := fresh "Hk" in
  match goal with
  | Hf : verdict (has_data_field _) _ = true |- _ =>
      apply has_data_field_passed in Hf as (b & Hb & Hd & Hk & _ & _);
      cbn [bind lift]; rewrite Hb; cbn [bind lift]; rewrite ?Hd; cbn [bind lift];
      rewrite ?Hk; cbn [bind lift ret]
  end.

Ltac prims :=
  cbn [bind get_cfg http_request trend_add rate_add new_Date Math_random sleep
       getTodayDate getCurrentTime getTimeAfterMinutes ret lift].

Lemma extract_run x w s :
  extract x w s =
  (after_call (call_of x) w s,
   Return (if passes (checks_of (call_of x)) (http w (n_http s))
           then value_of x (http w (n_http s)) else VNull)).
Proof.
  assert (Hdate : forall accessToken date,
    getSchedulesByDate accessToken date w s =
    (after_call (CallGetSchedulesByDate accessToken date) w s,
     Return (if passes getSchedulesByDate_checks (http w (n_http s))
             then value_of (ExGetSchedulesByDate accessToken date) (http w (n_http s))
             else VNull))).
  { intros accessToken date. unfold getSchedulesByDate.
    destruct date as [d|]; [destruct (String.eqb d "") eqn:Hd0|]; prims;
      run_check; prims; cbn [n_http use_clock use_random];
      (destruct (passes getSchedulesByDate_checks (http w (n_http s))) eqn:Hp;
       cbn [negb ret];
       [ passed_field Hp; read_body
       | ]); unfold after_call; cbn [draws_of request_of]; rewrite ?Hd0;
      cbn [value_of]; close_state. }
  destruct x; cbn [extract call_of checks_of value_of].
  - (* login *)
    unfold login. prims. run_check. prims.
    unfold after_call.
    destruct (passes login_checks (http w (n_http s))) eqn:Hp; cbn [negb ret].
    2:{ close_state. }
    passed_field Hp. read_body. close_state.
  - (* refreshToken *)
    unfold refreshToken. prims. run_check. prims.
    destruct (passes refreshToken_checks (http w (n_http s))) eqn:Hp; cbn [negb ret].
    2:{ close_state. }
    passed_field Hp. read_body. close_state.
  - (* signup *)
    unfold signup. destruct (randomEmail_run w s) as [email He].
    erewrite bind_run by apply He. prims. run_check. prims.
    cbn [n_http use_clock use_random].
    destruct (passes signup_checks (http w (n_http s))) eqn:Hp; cbn [negb ret].
    2:{ close_state. }
    passed_field Hp. read_body. close_state.
  - (* getProfile *)
    unfold getProfile. prims. run_check. prims.
    destruct (passes getProfile_checks (http w (n_http s))) eqn:Hp; cbn [negb ret].
    2:{ close_state. }
    passed_field Hp. read_body. close_state.
  - (* createSchedule *)
    unfold createSchedule. run_random. prims. run_check. prims.
    cbn [n_http use_clock use_random].
    destruct (passes createSchedule_checks (http w (n_http s))) eqn:Hp; cbn [negb ret].
    2:{ close_state. }
    passed_field Hp. read_body. close_state.
  - apply Hdate.
  - (* getDayPlanId *)
    unfold getDayPlanId. erewrite bind_run by apply Hdate.
    destruct (passes getSchedulesByDate_checks (http w (n_http s))) eqn:Hp; reflexivity.
Qed.

Ltac simple_call :=
  prims; run_check; prims; cbn [n_http use_clock use_random]; close_state.

Lemma logout_run t w s :
  logout t w s = (after_call (CallLogout t) w s, Return tt).
Proof. unfold logout. simple_call. Qed.

Lemma searchUsers_run t n p z w s :
  searchUsers t n p z w s =
  (after_call (CallSearchUsers t n p z) w s, Return (http w (n_http s))).
Proof. unfold searchUsers. simple_call. Qed.

Lemma getSchedules_run t d p z w s :
  getSchedules t d p z w s =
  (after_call (CallGetSchedules t d p z) w s, Return (http w (n_http s))).
Proof. unfold getSchedules. simple_call. Qed.

Lemma updateSchedule_run t i w s :
  updateSchedule t i w s =
  (after_call (CallUpdateSchedule t i) w s, Return (http w (n_http s))).
Proof. unfold updateSchedule. simple_call. Qed.

Lemma deleteSchedule_run t i w s :
  deleteSchedule t i w s =
  (after_call (CallDeleteSchedule t i) w s, Return (http w (n_http s))).
Proof. unfold deleteSchedule. simple_call. Qed.

Lemma updateScheduleStatus_run t i st w s :
  updateScheduleStatus t i st w s =
  (after_call (CallUpdateScheduleStatus t i st) w s, Return (http w (n_http s))).
Proof. unfold updateScheduleStatus. simple_call. Qed.

Lemma aiScheduleArrangement_run t d w s :
  aiScheduleArrangement t d w s =
  (after_call (CallAiScheduleArrangement t d) w s, Return (http w (n_http s))).
Proof. unfold aiScheduleArrangement. simple_call. Qed.

Lemma getNotifications_run t p z w s :
  getNotifications t p z w s =
  (after_call (CallGetNotifications t p z) w s, Return (http w (n_http s))).
Proof. unfold getNotifications. simple_call. Qed.

Lemma registerFcmToken_run t f p w s :
  registerFcmToken t f p w s =
  (after_call (CallRegisterFcmToken t f p) w s, Return (http w (n_http s))).
Proof. unfold registerFcmToken. simple_call. Qed.

Lemma healthCheck_run w s :
  healthCheck w s =
  (after_call CallHealthCheck w s, Return (passes healthCheck_checks (http w (n_http s)))).
Proof.
  unfold healthCheck. prims.
  rewrite check_run by total_checks. close_state.
Qed.

Ltac helper_run :=
  lazymatch goal with
  | |- login ?e ?p ?w ?s = _ => exact (extract_run (ExLogin e p) w s)
  | |- refreshToken ?k ?w ?s = _ => exact (extract_run (ExRefreshToken k) w s)
  | |- signup ?w ?s = _ => exact (extract_run ExSignup w s)
  | |- getProfile ?t ?w ?s = _ => exact (extract_run (ExGetProfile t) w s)
  | |- createSchedule ?t ?d ?w ?s = _ => exact (extract_run (ExCreateSchedule t d) w s)
  | |- getSchedulesByDate ?t ?d ?w ?s = _ =>
      exact (extract_run (ExGetSchedulesByDate t d) w s)
  | |- getDayPlanId ?t ?d ?w ?s = _ => exact (extract_run (ExGetDayPlanId t d) w s)
  | |- logout _ _ _ = _ => apply logout_run
  | |- searchUsers _ _ _ _ _ _ = _ => apply searchUsers_run
  | |- getSchedules _ _ _ _ _ _ = _ => apply getSchedules_run
  | |- updateSchedule _ _ _ _ = _ => apply updateSchedule_run
  | |- deleteSchedule _ _ _ _ = _ => apply deleteSchedule_run
  | |- updateScheduleStatus _ _ _ _ _ = _ => apply updateScheduleStatus_run
  | |- aiScheduleArrangement _ _ _ _ = _ => apply aiScheduleArrangement_run
  | |- getNotifications _ _ _ _ _ = _ => apply getNotifications_run
  | |- registerFcmToken _ _ _ _ _ = _ => apply registerFcmToken_run
  | |- healthCheck _ _ = _ => apply healthCheck_run
  end.

Ltac run_helper := erewrite bind_run by helper_run.

(** Every helper returns; it leaves the state [after_call] describes. *)
Lemma invoke_run c w s : invoke c w s = (after_call c w s, Return tt).
Proof.
  destruct c; cbn [invoke]; unfold discard;
    first [ apply logout_run | run_helper; reflexivity ].
Qed.

(** ** The journeys *)

Lemma bind_assoc {A B C} (m : K6 A) (f : A -> K6 B) (g : B -> K6 C) w s :
  bind (bind m f) g w s = bind m (fun x => bind (f x) g) w s.
Proof. unfold bind. destruct (m w s) as [s' [a|e]]; reflexivity. Qed.

Lemma passes_field preds name fld r :
  In (name, has_data_field fld) preds -> passes preds r = true ->
  verdict (has_data_field fld) r = true.
Proof.
  intros Hin Hp. unfold passes in Hp. rewrite forallb_forall in Hp.
  apply (Hp _ Hin).
Qed.

Lemma signup_group_run name w s :
  signup_group name w s =
  (after_call CallSignup w s,
   Return (passes signup_checks (http w (n_http s)), signup_token (http w (n_http s)))).
Proof.
  unfold signup_group, group, signup_token.
  erewrite bind_run by helper_run. cbn [call_of checks_of value_of].
  destruct (passes signup_checks (http w (n_http s))); reflexivity.
Qed.

Lemma dayPlanId_of_run t d r w s :
  dayPlanId_of (if passes getSchedulesByDate_checks r
                then value_of (ExGetSchedulesByDate t d) r else VNull) w s =
  (s, Return (day_plan_id r)).
Proof.
  unfold dayPlanId_of, day_plan_id.
  destruct (passes getSchedulesByDate_checks r) eqn:Hp; [|reflexivity].
  apply (passes_field _ "get_schedules_by_date: has dayPlanId" "dayPlanId") in Hp;
    [|cbn; auto].
  apply has_data_field_passed in Hp as (_ & _ & _ & _ & _ & Ht).
  cbn. rewrite Ht. reflexivity.
Qed.


Lemma created_schedule_read r :
  passes createSchedule_checks r = true ->
  truthy (data_of r) = true /\
  get_prop (data_of r) "scheduleId" = Return (data_field "scheduleId" r) /\
  truthy (data_field "scheduleId" r) = true.
Proof.
  intros Hp.
  apply (passes_field _ "create_schedule: has schedule id" "scheduleId") in Hp;
    [|cbn; auto].
  apply has_data_field_passed in Hp as (_ & _ & _ & Hk & Hd & Ht). auto.
Qed.

Lemma created_schedule_found r :
  truthy (created_schedule r) = passes createSchedule_checks r.
Proof.
  unfold created_schedule.
  destruct (passes createSchedule_checks r) eqn:Hp; [|reflexivity].
  now apply created_schedule_read in Hp.
Qed.

Lemma delete_if_created_run t r w s :
  delete_if_created t (created_schedule r) w s =
  if passes createSchedule_checks r
  then (after_call (CallDeleteSchedule t (data_field "scheduleId" r)) w s, Return tt)
  else (s, Return tt).
Proof.
  unfold delete_if_created, created_schedule.
  destruct (passes createSchedule_checks r) eqn:Hp; [|reflexivity].
  apply created_schedule_read in Hp as (Hd & Hk & Ht).
  unfold js_and. cbn [bind lift obind]. rewrite Hd, Hk. cbn [bind lift obind].
  rewrite Ht. cbn [bind lift].
  erewrite bind_run by helper_run. reflexivity.
Qed.

Lemma complete_if_created_run t r w s :
  complete_if_created t (created_schedule r) w s =
  if passes createSchedule_checks r
  then (after_call (CallUpdateScheduleStatus t (data_field "scheduleId" r) "DONE") w s,
        Return tt)
  else (s, Return tt).
Proof.
  unfold complete_if_created, created_schedule.
  destruct (passes createSchedule_checks r) eqn:Hp; [|reflexivity].
  apply created_schedule_read in Hp as (Hd & Hk & Ht).
  unfold js_and. cbn [bind lift obind]. rewrite Hd, Hk. cbn [bind lift obind].
  rewrite Ht. cbn [bind lift].
  erewrite bind_run by helper_run. reflexivity.
Qed.

Lemma createSchedule_run t d w s :
  createSchedule t d w s =
  (after_call (CallCreateSchedule t d) w s,
   Return (created_schedule (http w (n_http s)))).
Proof. apply (extract_run (ExCreateSchedule t d)). Qed.

Lemma tags_since_app s s' reqs :
  requests s' = requests s ++ reqs -> tags_since s s' = map req_tag reqs.
Proof. intros H. unfold tags_since. now rewrite H, drop_app_length. Qed.

(** *** What a step leaves of the state *)

Lemma tags_after_call c w s : tags (after_call c w s) = tags s ++ [tag_of c].
Proof.
  unfold tags, after_call.
  destruct c; cbn [requests exchanged add_rate]; rewrite map_app; reflexivity.
Qed.

Lemma n_http_after_call c w s : n_http (after_call c w s) = S (n_http s).
Proof. destruct c; reflexivity. Qed.

Lemma n_random_after_call c w s :
  n_random (after_call c w s) = (fst (draws_of c) + n_random s)%nat.
Proof. destruct c; reflexivity. Qed.

Lemma n_clock_after_call c w s :
  n_clock (after_call c w s) = (snd (draws_of c) + n_clock s)%nat.
Proof. destruct c; reflexivity. Qed.

Lemma rates_after_call c w s :
  tag_of c <> "login" -> rates (after_call c w s) = rates s.
Proof. destruct c; cbn; congruence. Qed.

Lemma cfg_after_call c w s : cfg (after_call c w s) = cfg s.
Proof. destruct c; reflexivity. Qed.

Lemma tags_add_sleep q s : tags (add_sleep q s) = tags s.
Proof. reflexivity. Qed.
Lemma tags_use_random k s : tags (use_random k s) = tags s.
Proof. reflexivity. Qed.
Lemma tags_use_clock k s : tags (use_clock k s) = tags s.
Proof. reflexivity. Qed.
Lemma tags_add_rate k b s : tags (add_rate k b s) = tags s.
Proof. reflexivity. Qed.
Lemma tags_add_trend k v s : tags (add_trend k v s) = tags s.
Proof. reflexivity. Qed.

Lemma n_http_add_sleep q s : n_http (add_sleep q s) = n_http s.
Proof. reflexivity. Qed.
Lemma n_http_use_random k s : n_http (use_random k s) = n_http s.
Proof. reflexivity. Qed.
Lemma n_http_use_clock k s : n_http (use_clock k s) = n_http s.
Proof. reflexivity. Qed.
Lemma n_http_add_rate k b s : n_http (add_rate k b s) = n_http s.
Proof. reflexivity. Qed.
Lemma n_http_add_trend k v s : n_http (add_trend k v s) = n_http s.
Proof. reflexivity. Qed.

Lemma n_random_add_sleep q s : n_random (add_sleep q s) = n_random s.
Proof. reflexivity. Qed.
Lemma n_random_use_random k s : n_random (use_random k s) = (k + n_random s)%nat.
Proof. reflexivity. Qed.
Lemma n_random_use_clock k s : n_random (use_clock k s) = n_random s.
Proof. reflexivity. Qed.
Lemma n_random_add_rate k b s : n_random (add_rate k b s) = n_random s.
Proof. reflexivity. Qed.
Lemma n_random_add_trend k v s : n_random (add_trend k v s) = n_random s.
Proof. reflexivity. Qed.

Lemma n_clock_add_sleep q s : n_clock (add_sleep q s) = n_clock s.
Proof. reflexivity. Qed.
Lemma n_clock_use_random k s : n_clock (use_random k s) = n_clock s.
Proof. reflexivity. Qed.
Lemma n_clock_use_clock k s : n_clock (use_clock k s) = (k + n_clock s)%nat.
Proof. reflexivity. Qed.
Lemma n_clock_add_rate k b s : n_clock (add_rate k b s) = n_clock s.
Proof. reflexivity. Qed.
Lemma n_clock_add_trend k v s : n_clock (add_trend k v s) = n_clock s.
Proof. reflexivity. Qed.

Lemma rates_add_sleep q s : rates (add_sleep q s) = rates s.
Proof. reflexivity. Qed.
Lemma rates_use_random k s : rates (use_random k s) = rates s.
Proof. reflexivity. Qed.
Lemma rates_use_clock k s : rates (use_clock k s) = rates s.
Proof. reflexivity. Qed.
Lemma rates_add_trend k v s : rates (add_trend k v s) = rates s.
Proof. reflexivity. Qed.
Lemma rates_add_rate k b s :
  rates (add_rate k b s) = <[k := default [] (rates s !! k) ++ [b]]> (rates s).
Proof. reflexivity. Qed.

#[local] Set Warnings "-implicit-create-rewrite-hint-db".
#[local] Hint Rewrite tags_after_call n_http_after_call n_random_after_call
  n_clock_after_call
  tags_add_sleep tags_use_random tags_use_clock tags_add_rate tags_add_trend
  n_http_add_sleep n_http_use_random n_http_use_clock n_http_add_rate n_http_add_trend
  n_random_add_sleep n_random_use_random n_random_use_clock n_random_add_rate
  n_random_add_trend
  n_clock_add_sleep n_clock_use_random n_clock_use_clock n_clock_add_rate
  n_clock_add_trend
  rates_add_sleep rates_use_random rates_use_clock rates_add_trend rates_add_rate
  : k6_state.
#[local] Hint Rewrite rates_after_call using (cbn; discriminate) : k6_state.

Lemma iteration_did_intro s s' steps failed :
  tags s' = tags s ++ steps ->
  rates s' = <[scenarioFailRate := default [] (rates s !! scenarioFailRate) ++ [failed]]>
               (rates s) ->
  iteration_did s s' steps failed.
Proof.
  intros Ht Hr. split; [|exact Hr].
  unfold tags_since. rewrite <- (length_map req_tag (requests s)), <- skipn_map.
  fold (tags s'). fold (tags s). now rewrite Ht, drop_app_length.
Qed.

(** *** The primitives, as equations *)

Lemma ret_run {A} (a : A) w s : ret a w s = (s, Return a).
Proof. reflexivity. Qed.

Lemma thinkTime_run a b w s :
  thinkTime a b w s =
  (add_sleep (a + random w (n_random s) * (b - a))%Q (use_random 1 s), Return tt).
Proof. reflexivity. Qed.

Lemma sleep_run q w s : sleep q w s = (add_sleep q s, Return tt).
Proof. reflexivity. Qed.

Lemma new_Date_run w s : new_Date w s = (use_clock 1 s, Return (clock w (n_clock s))).
Proof. reflexivity. Qed.

Lemma Math_random_run w s :
  Math_random w s = (use_random 1 s, Return (random w (n_random s))).
Proof. reflexivity. Qed.

Lemma getCurrentTime_run w s :
  getCurrentTime w s = (use_clock 1 s, Return (local_minutes (clock w (n_clock s)))).
Proof. reflexivity. Qed.

Lemma getTimeAfterMinutes_run m w s :
  getTimeAfterMinutes m w s =
  (use_clock 1 s, Return ((local_minutes (clock w (n_clock s)) + m) mod 1440)).
Proof. reflexivity. Qed.

Lemma rate_add_run k b w s : rate_add k b w s = (add_rate k b s, Return tt).
Proof. reflexivity. Qed.

Lemma trend_add_run k v w s : trend_add k v w s = (add_trend k v s, Return tt).
Proof. reflexivity. Qed.

Lemma signup_token_passed r :
  truthy (signup_token r) = true -> passes signup_checks r = true.
Proof. unfold signup_token. destruct (passes signup_checks r); [reflexivity | discriminate]. Qed.

Ltac journey_run :=
  lazymatch goal with
  | |- ret _ _ _ = _ => apply ret_run
  | |- thinkTime _ _ _ _ = _ => apply thinkTime_run
  | |- sleep _ _ _ = _ => apply sleep_run
  | |- new_Date _ _ = _ => apply new_Date_run
  | |- Math_random _ _ = _ => apply Math_random_run
  | |- getCurrentTime _ _ = _ => apply getCurrentTime_run
  | |- getTimeAfterMinutes _ _ _ = _ => apply getTimeAfterMinutes_run
  | |- rate_add _ _ _ _ = _ => apply rate_add_run
  | |- trend_add _ _ _ _ = _ => apply trend_add_run
  | |- createSchedule _ _ _ _ = _ => apply createSchedule_run
  | |- signup_group _ _ _ = _ => apply signup_group_run
  | |- dayPlanId_of _ _ _ = _ => apply dayPlanId_of_run
  | |- randomString _ _ _ = _ => apply randomString_run
  | |- delete_if_created _ _ _ _ = _ =>
      rewrite delete_if_created_run;
      match goal with H : passes createSchedule_checks _ = _ |- _ => rewrite H end;
      reflexivity
  | |- complete_if_created _ _ _ _ = _ =>
      rewrite complete_if_created_run;
      match goal with H : passes createSchedule_checks _ = _ |- _ => rewrite H end;
      reflexivity
  | |- _ => helper_run
  end.

(** One step of a journey.  Every step is an equation, so that the
    states that pile up are never compared by computation. *)
Ltac k6_step :=
  first
    [ rewrite bind_assoc
    | erewrite bind_run by journey_run
    | progress cbv beta iota
    | progress cbn [call_of checks_of value_of draws_of fst snd Nat.add]
    | progress autorewrite with k6_state ].

Ltac last_step :=
  lazymatch goal with
  | |- exists s', ?m ?w ?s = (s', Return tt) /\ _ =>
      eexists; split; [journey_run|]
  end.

Ltac reached :=
  repeat first
    [ apply reaches_call | apply reaches_sleep | apply reaches_random
    | apply reaches_clock | apply reaches_rate | apply reaches_trend ];
  apply reaches_refl.

Ltac finish_iteration :=
  last_step; split;
  [ apply iteration_did_intro; autorewrite with k6_state;
    [ rewrite <- ?app_assoc; reflexivity | reflexivity ]
  | reached ].

Ltac branch_signup :=
  match goal with
  | |- context [truthy (signup_token ?r)] =>
      let H := fresh "Htoken" in
      destruct (truthy (signup_token r)) eqn:H; cbn [negb];
      [ rewrite ?(signup_token_passed _ H) | ]
  end.

Ltac branch_day_plan :=
  match goal with
  | |- context [truthy (day_plan_id ?r)] =>
      let H := fresh "Hplan" in
      destruct (truthy (day_plan_id r)) eqn:H; cbn [negb]
  end.

Ltac branch_created :=
  rewrite ?created_schedule_found;
  let H := fresh "Hcreated" in
  match goal with
  | |- context [passes createSchedule_checks ?r] =>
      destruct (passes createSchedule_checks r) eqn:H; cbn [negb]
  | |- context [created_schedule ?r] =>
      destruct (passes createSchedule_checks r) eqn:H
  end.

Ltac run_on :=
  repeat k6_step; rewrite ?created_schedule_found;
  repeat match goal with
         | H : passes createSchedule_checks _ = _ |- _ => rewrite !H
         end;
  cbn [negb]; repeat k6_step.

#[local] Opaque after_call add_sleep use_random use_clock add_rate add_trend.

Lemma load_test_run w s :
  exists s',
    load_test_default w s = (s', Return tt) /\
    iteration_did s s' (load_test_tags (progress w (n_http s)))
      (recorded_failure (progress w (n_http s))) /\
    reaches s s'.
Proof.
  unfold progress, load_test_default, group, record_scenario. cbn [Nat.add].
  run_on. branch_signup; run_on; [|finish_iteration].
  branch_day_plan; run_on; [|finish_iteration].
  branch_created; run_on; finish_iteration.
Qed.

Lemma stress_test_run w s :
  exists s',
    stress_test_default w s = (s', Return tt) /\
    iteration_did s s' (stress_test_tags (progress w (n_http s)))
      (recorded_failure (progress w (n_http s))) /\
    reaches s s'.
Proof.
  unfold progress, stress_test_default, group, record_scenario. cbn [Nat.add].
  run_on. branch_signup; run_on; [|finish_iteration].
  branch_day_plan; run_on; [|finish_iteration].
  branch_created; run_on; finish_iteration.
Qed.

Ltac finish_reached := eexists; split; [journey_run | reached].

Lemma spike_test_run w s :
  exists s', spike_test_default w s = (s', Return tt) /\ reaches s s'.
Proof.
  unfold spike_test_default, group, record_scenario.
  run_on. branch_signup; run_on; [|finish_reached].
  branch_day_plan; run_on.
  - match goal with
    | |- context [Qltb ?r (2 # 10)] => destruct (Qltb r (2 # 10)) eqn:Hdraw
    end; run_on.
    + branch_created; run_on;
        match goal with
        | |- context [Qltb ?r (5 # 10)] => destruct (Qltb r (5 # 10)) eqn:Hout
        end; run_on; finish_reached.
    + match goal with
      | |- context [Qltb ?r (5 # 10)] => destruct (Qltb r (5 # 10)) eqn:Hout
      end; run_on; finish_reached.
  - match goal with
    | |- context [Qltb ?r (5 # 10)] => destruct (Qltb r (5 # 10)) eqn:Hout
    end; run_on; finish_reached.
Qed.

#[local] Transparent after_call add_sleep use_random use_clock add_rate add_trend.

(** ** What every reachable state keeps *)

Lemma reaches_trans s s1 s2 : reaches s s1 -> reaches s1 s2 -> reaches s s2.
Proof. intros H1 H2. induction H2; try (constructor; assumption). assumption. Qed.

Lemma reaches_cfg s s' : reaches s s' -> cfg s' = cfg s.
Proof.
  induction 1 as [|c ? ? ? IH| | | | |]; try assumption.
  - reflexivity.
  - rewrite cfg_after_call. exact IH.
Qed.

Lemma request_built_from c w k call : built_from c (request_of c w k call).
Proof.
  unfold built_from.
  destruct call; cbn [request_of req_base req_timeout req_headers];
    (split; [reflexivity|]); (split; [auto|]); eauto.
Qed.

Lemma requests_after_call c w s :
  requests (after_call c w s) = requests s ++ [request_of (cfg s) w (n_clock s) c].
Proof. destruct c; reflexivity. Qed.

Lemma reaches_requests s s' :
  reaches s s' ->
  exists reqs,
    requests s' = requests s ++ reqs /\ Forall (built_from (cfg s)) reqs.
Proof.
  intros H.
  induction H as [|c w s1 H IH| | | | |]; try assumption.
  - exists []. split; [now rewrite app_nil_r | constructor].
  - destruct IH as (reqs & Hreqs & Hall).
    exists (reqs ++ [request_of (cfg s) w (n_clock s1) c]). split.
    + rewrite requests_after_call, Hreqs, (reaches_cfg _ _ H).
      now rewrite app_assoc.
    + apply Forall_app. split; [assumption|].
      constructor; [|constructor]. apply request_built_from.
Qed.

(** ** The lifecycle *)

Lemma setup_run testType w s :
  setup testType w s =
  if passes healthCheck_checks (http w (n_http s))
  then (use_clock 1 (after_call CallHealthCheck w s), Return testType)
  else (after_call CallHealthCheck w s, Throw (Error "Server health check failed")).
Proof.
  unfold setup. erewrite bind_run by apply healthCheck_run.
  destruct (passes healthCheck_checks (http w (n_http s))); reflexivity.
Qed.

Lemma default_run script w s :
  exists s', default_of script w s = (s', Return tt) /\ reaches s s'.
Proof.
  destruct script; cbn [default_of].
  - destruct (load_test_run w s) as (s' & H & _ & Hr). eauto.
  - destruct (stress_test_run w s) as (s' & H & _ & Hr). eauto.
  - apply spike_test_run.
Qed.

Lemma iterate_run script n w s :
  exists s', iterate n (default_of script) w s = (s', Return tt) /\ reaches s s'.
Proof.
  revert s. induction n as [|n IH]; intros s.
  - exists s. split; [reflexivity | constructor].
  - destruct (default_run script w s) as (s1 & H1 & Hr1).
    destruct (IH s1) as (s2 & H2 & Hr2).
    exists s2. split.
    + cbn [iterate]. erewrite bind_run by exact H1. exact H2.
    + eapply reaches_trans; eassumption.
Qed.

Lemma test_run_reaches script n w s :
  reaches s (fst (test_run (testType_of script) (default_of script) n w s)).
Proof.
  unfold test_run, bind at 1. rewrite setup_run.
  destruct (passes healthCheck_checks (http w (n_http s))).
  - destruct (iterate_run script n w (use_clock 1 (after_call CallHealthCheck w s)))
      as (s' & H & Hr).
    rewrite H. cbn [fst].
    eapply reaches_trans; [|exact Hr]. repeat constructor.
  - cbn [fst]. repeat constructor.
Qed.

(** ** Responses whose body cannot be used *)



Lemma extraction_check_in x :
  In (extraction_check x, has_data_field (checked_field x)) (checks_of (call_of x)).
Proof. destruct x; cbn; auto 10. Qed.


Lemma trends_after_call c w s :
  trends (after_call c w s) =
  match trend_of c with
  | Some name =>
      <[name := default [] (trends s !! name) ++ [timings_duration (http w (n_http s))]]>
        (trends s)
  | None => trends s
  end.
Proof. destruct c; reflexivity. Qed.


(** C9.  Every call of a helper that owns a Trend appends exactly one
    sample to that Trend, the duration of the answer, whatever the
    answer is: the checks play no part, and no other Trend changes. *)
Theorem one_duration_sample_per_call (c : Call) (name : string) (w : World) (s : State) :
  trend_of c = Some name ->
  exists s',
    invoke c w s = (s', Return tt) /\
    trends s' =
      <[name := default [] (trends s !! name) ++ [timings_duration (http w (n_http s))]]>
        (trends s).
Proof.
  intros H. exists (after_call c w s). split; [apply invoke_run|].
  now rewrite trends_after_call, H.
Qed.

(** A login answered after 40 ms with a body that does not parse: its
    checks fail, and the 40 ms are in [login_duration]. *)
Lemma one_duration_sample_per_call_witness :
  exists s',
    invoke (CallLogin "loadtest1@test.com" "Test1234!") world_unparsable initial_state
      = (s', Return tt) /\
    trends s' = <[loginDuration := [40%Q]]> ∅.
Proof.
  apply (one_duration_sample_per_call (CallLogin "loadtest1@test.com" "Test1234!")
           loginDuration world_unparsable initial_state).
  reflexivity.
Defined.

(** C10.  On a non-empty array and an id of at least 1,
    [selectTestUser] returns the element at index
    [(vuId - 1) mod users.length]: an element of the array, the same
    one for every id congruent to [vuId] modulo the length. *)
Theorem selectTestUser_round_robin {A} (users : list A) (vuId : Z) :
  users <> [] -> 1 <= vuId ->
  exists u,
    selectTestUser users vuId = Some u /\
    users !! Z.to_nat ((vuId - 1) mod Z.of_nat (length users)) = Some u /\
    u ∈ users /\
    forall vuId',
      1 <= vuId' ->
      (vuId' - 1) mod Z.of_nat (length users) = (vuId - 1) mod Z.of_nat (length users) ->
      selectTestUser users vuId' = Some u.
Proof.
  intros Hne Hv.
  assert (Hlen : 0 < Z.of_nat (length users)) by (destruct users; [congruence | cbn; lia]).
  assert (Hsel : forall v, 1 <= v ->
            selectTestUser users v = users !! Z.to_nat ((v - 1) mod Z.of_nat (length users))).
  { intros v Hv1. unfold selectTestUser.
    destruct (Z.eqb_spec (Z.of_nat (length users)) 0); [lia|].
    rewrite Z.rem_mod_nonneg by lia.
    destruct (Z.ltb_spec ((v - 1) mod Z.of_nat (length users)) 0); [|reflexivity].
    pose proof (Z.mod_pos_bound (v - 1) (Z.of_nat (length users)) Hlen). lia. }
  destruct (lookup_lt_is_Some_2 users (Z.to_nat ((vuId - 1) mod Z.of_nat (length users))))
    as [u Hu].
  { pose proof (Z.mod_pos_bound (vuId - 1) (Z.of_nat (length users)) Hlen). lia. }
  exists u. repeat split.
  - now rewrite Hsel.
  - exact Hu.
  - eapply list_elem_of_lookup_2, Hu.
  - intros v Hv1 Hmod. now rewrite Hsel, Hmod.
Qed.

(** A test user is found for every positive id. *)
Lemma selectTestUser_round_robin_witness :
  exists u,
    selectTestUser ["a"; "b"; "c"] 5 = Some u /\
    ["a"; "b"; "c"] !! Z.to_nat ((5 - 1) mod Z.of_nat (length ["a"; "b"; "c"])) = Some u /\
    u ∈ ["a"; "b"; "c"] /\
    forall vuId',
      1 <= vuId' ->
      (vuId' - 1) mod Z.of_nat (length ["a"; "b"; "c"]) =
      (5 - 1) mod Z.of_nat (length ["a"; "b"; "c"]) ->
      selectTestUser ["a"; "b"; "c"] vuId' = Some u.
Proof.
  apply (selectTestUser_round_robin ["a"; "b"; "c"] 5); [discriminate | lia].
Defined.

(** C8.  No helper changes the configuration, and each builds its
    request from the configuration it finds; so a whole run of any of
    the three scripts, started from the configuration of config.js,
    ends with that configuration, and every request it issued was built
    from it. *)
Theorem configuration_is_never_mutated (script : Script) (n : nat) (w : World) :
  let s' := fst (test_run (testType_of script) (default_of script) n w initial_state) in
  (forall (c : Call) (w' : World) (s : State),
     cfg (fst (invoke c w' s)) = cfg s /\
     exists req,
       requests (fst (invoke c w' s)) = requests s ++ [req] /\ built_from (cfg s) req) /\
  cfg s' = config_js /\
  Forall (built_from config_js) (requests s').
Proof.
  cbv zeta. split; [|split].
  - intros c w' s. rewrite invoke_run. cbn [fst]. split; [apply cfg_after_call|].
    eexists. split; [apply requests_after_call | apply request_built_from].
  - apply (reaches_cfg _ _ (test_run_reaches script n w initial_state)).
  - destruct (reaches_requests _ _ (test_run_reaches script n w initial_state))
      as (reqs & Hreqs & Hall).
    now rewrite Hreqs.
Qed.

(** C5.  No helper throws, no iteration of the three scripts throws,
    and no sequence of iterations throws; a run throws exactly when the
    health check of [setup] fails, with the error of [setup], and then
    the health check is the only request that was made. *)
Theorem only_a_failed_setup_halts_the_run (script : Script) (n : nat) (w : World) (s : State) :
  (forall (c : Call) (w' : World) (s' : State),
     exists s'', invoke c w' s' = (s'', Return tt)) /\
  (forall (w' : World) (s' : State),
     exists s'', default_of script w' s' = (s'', Return tt)) /\
  (forall (w' : World) (s' : State),
     exists s'', iterate n (default_of script) w' s' = (s'', Return tt)) /\
  test_run (testType_of script) (default_of script) n w s =
    if passes healthCheck_checks (http w (n_http s))
    then (fst (iterate n (default_of script) w (use_clock 1 (after_call CallHealthCheck w s))),
          Return tt)
    else (after_call CallHealthCheck w s, Throw (Error "Server health check failed")).
Proof.
  split; [|split; [|split]].
  - intros c w' s'. eexists. apply invoke_run.
  - intros w' s'. destruct (default_run script w' s') as (s'' & H & _). eauto.
  - intros w' s'. destruct (iterate_run script n w' s') as (s'' & H & _). eauto.
  - unfold test_run, bind at 1. rewrite setup_run.
    destruct (passes healthCheck_checks (http w (n_http s))); [|reflexivity].
    destruct (iterate_run script n w (use_clock 1 (after_call CallHealthCheck w s)))
      as (s'' & H & _).
    now rewrite H.
Qed.

(** C1 as stated does not hold.  When creating the schedule times out,
    both journeys go on with [getSchedules], which is no cleanup
    step. *)
Lemma fail_fast_counterexample :
  ~ spec_fail_fast load_test_default /\ ~ spec_fail_fast stress_test_default.
Proof.
  split; intros H;
    specialize (H world_create_times_out initial_state 3%nat
                  "create_schedule" "get_schedules");
    vm_compute in H;
    assert (Hf : false = true)
      by (apply H; [reflexivity | reflexivity | repeat constructor]);
    discriminate Hf.
Qed.

(** C1, amended.  An iteration of the load and of the stress journey
    never throws, calls the helpers that its progress determines, in
    the order of the source, and adds one sample to
    [scenario_failures].  Without a token only [signup] is called;
    without a day plan nothing after the day plan lookup; when creating
    the schedule failed, every later step but those that need the
    created schedule. *)
Theorem steps_follow_progress (w : World) (s : State) :
  exists s1 s2,
    load_test_default w s = (s1, Return tt) /\
    stress_test_default w s = (s2, Return tt) /\
    iteration_did s s1 (load_test_tags (progress w (n_http s)))
      (recorded_failure (progress w (n_http s))) /\
    iteration_did s s2 (stress_test_tags (progress w (n_http s)))
      (recorded_failure (progress w (n_http s))).
Proof.
  destruct (load_test_run w s) as (s1 & H1 & Hd1 & _).
  destruct (stress_test_run w s) as (s2 & H2 & Hd2 & _).
  exists s1, s2. auto.
Qed.

(** C2 as stated does not hold.  When creating the schedule times out,
    neither journey calls [deleteSchedule]. *)
Lemma cleanup_counterexample :
  ~ spec_cleanup_after_failure load_test_default /\
  ~ spec_cleanup_after_failure stress_test_default.
Proof.
  split; intros H; specialize (H world_create_times_out initial_state);
    vm_compute in H; specialize (H eq_refl); discriminate H.
Qed.

(** C2, amended.  When creating the schedule failed, both journeys skip
    [deleteSchedule], still log out once, and record the iteration as
    failed in [scenario_failures]. *)
Theorem failed_create_skips_delete (w : World) (s : State) :
  progress w (n_http s) = NotCreated ->
  exists s1 s2,
    load_test_default w s = (s1, Return tt) /\
    stress_test_default w s = (s2, Return tt) /\
    invocations "delete_schedule" (tags_since s s1) = 0%nat /\
    invocations "delete_schedule" (tags_since s s2) = 0%nat /\
    invocations "logout" (tags_since s s1) = 1%nat /\
    invocations "logout" (tags_since s s2) = 1%nat /\
    rates s1 !! scenarioFailRate = Some (default [] (rates s !! scenarioFailRate) ++ [true]) /\
    rates s2 !! scenarioFailRate = Some (default [] (rates s !! scenarioFailRate) ++ [true]).
Proof.
  intros Hp.
  destruct (load_test_run w s) as (s1 & H1 & [Ht1 Hr1] & _).
  destruct (stress_test_run w s) as (s2 & H2 & [Ht2 Hr2] & _).
  rewrite Hp in *. cbn [recorded_failure] in *.
  exists s1, s2. rewrite Ht1, Ht2, Hr1, Hr2, lookup_insert_eq.
  repeat split; assumption || reflexivity.
Qed.

(** Creating the schedule times out. *)
Lemma failed_create_skips_delete_witness :
  exists s1 s2,
    load_test_default world_create_times_out initial_state = (s1, Return tt) /\
    stress_test_default world_create_times_out initial_state = (s2, Return tt) /\
    invocations "delete_schedule" (tags_since initial_state s1) = 0%nat /\
    invocations "delete_schedule" (tags_since initial_state s2) = 0%nat /\
    invocations "logout" (tags_since initial_state s1) = 1%nat /\
    invocations "logout" (tags_since initial_state s2) = 1%nat /\
    rates s1 !! scenarioFailRate = Some [true] /\
    rates s2 !! scenarioFailRate = Some [true].
Proof.
  apply (failed_create_skips_delete world_create_times_out initial_state).
  vm_compute. reflexivity.
Defined.

(** ** The report *)

Lemma threshold_counts d :
  (passedThresholds d + failedThresholds d)%nat = length (default [] (thresholds d)).
Proof.
  unfold passedThresholds, failedThresholds, thresholdResults.
  rewrite <- (length_map (fun '(name, result) => (name, ok result)) (default [] (thresholds d))).
  induction (map _ (default [] (thresholds d))) as [|[name b] l IH]; [reflexivity|].
  destruct b.
  - rewrite filter_cons_True by reflexivity.
    rewrite filter_cons_False by (cbn; discriminate).
    cbn [length]. lia.
  - rewrite filter_cons_False by (cbn; discriminate).
    rewrite filter_cons_True by reflexivity.
    cbn [length]. lia.
Qed.




(** C3 as stated does not hold.  A rule on a series without samples
    that k6 reports as passed is shown as passed. *)
Lemma no_data_counterexample :
  ~ spec_no_data_outcome summary_without_signups "load-test".
Proof.
  intros H.
  destruct (H "signup_duration" {| ok := true |}
              {| source := ThresholdVerdict "signup_duration"; shown := Badge true |})
    as [Hpass _].
  - vm_compute. repeat constructor.
  - vm_compute. exact I.
  - vm_compute. repeat constructor.
  - reflexivity.
  - now apply Hpass.
Qed.

(** C3, amended.  The threshold section shows, after the two counts,
    one verdict per rule in the order of the summary: the [ok] flag of
    the rule as k6 supplied it.  Passed and failed rules add up to the
    number of rules, and the section does not depend on the metrics of
    the summary, so a series without samples is not told apart. *)
Theorem threshold_verdict_is_the_ok_flag (d : Summary) (testName : string) :
  let section := threshold_section (generateHtmlReport d testName) in
  drop 2 section =
    map (fun rule => {| source := ThresholdVerdict (fst rule);
                        shown := Badge (ok (snd rule)) |})
        (default [] (thresholds d)) /\
  (passedThresholds d + failedThresholds d)%nat = length (default [] (thresholds d)) /\
  (forall (m : gmap string Metric) (g : option Group) (testName' : string),
     threshold_section
       (generateHtmlReport {| metrics := m; thresholds := thresholds d; root_group := g |}
          testName')
     = section).
Proof.
  cbv zeta. split; [|split].
  - cbn [generateHtmlReport threshold_section drop]. unfold thresholdResults.
    rewrite map_map. apply map_ext. now intros [name result].
  - apply threshold_counts.
  - reflexivity.
Qed.




(** ** Percentiles *)

Lemma sorted_lookup_le (l : list Q) :
  StronglySorted Qle l ->
  forall i j a b, (i <= j)%nat -> l !! i = Some a -> l !! j = Some b -> (a <= b)%Q.
Proof.
  induction 1 as [|x l Hs IH Hall]; intros i j a b Hij Hi Hj.
  - discriminate.
  - destruct i as [|i], j as [|j]; cbn in Hi, Hj.
    + injection Hi as <-. injection Hj as <-. apply Qle_refl.
    + injection Hi as <-. rewrite Forall_forall in Hall.
      apply Hall. eapply list_elem_of_lookup_2, Hj.
    + lia.
    + apply (IH i j); [lia | assumption | assumption].
Qed.

Lemma rank_mono p q n : (p <= q)%nat -> (rank p n <= rank q n)%nat.
Proof. intros H. unfold rank. apply Nat.Div0.div_le_mono. nia. Qed.

Lemma rank_pos p n : (1 <= p)%nat -> (1 <= n)%nat -> (1 <= rank p n)%nat.
Proof.
  intros Hp Hn. unfold rank.
  apply (Nat.div_le_lower_bound _ 100 1); [lia | nia].
Qed.

Lemma rank_le p n : (p <= 100)%nat -> (rank p n <= n)%nat.
Proof.
  intros Hp. unfold rank.
  assert (H : (p * n + 99 < 100 * (S n))%nat) by nia.
  apply Nat.Div0.div_lt_upper_bound in H. lia.
Qed.

Lemma percentile_is_Some p samples :
  samples <> [] -> (1 <= p <= 100)%nat -> is_Some (percentile p samples).
Proof.
  intros Hne Hp. unfold percentile. apply lookup_lt_is_Some_2.
  rewrite (Permutation_length (merge_sort_Permutation Qle samples)).
  assert (1 <= length samples)%nat by (destruct samples; [congruence | cbn; lia]).
  pose proof (rank_pos p (length samples)). pose proof (rank_le p (length samples)). lia.
Qed.

Lemma percentile_mono p q samples a b :
  (p <= q)%nat -> percentile p samples = Some a -> percentile q samples = Some b ->
  (a <= b)%Q.
Proof.
  intros Hpq Ha Hb. unfold percentile in *.
  eapply (sorted_lookup_le _ (StronglySorted_merge_sort Qle samples)); [|exact Ha|exact Hb].
  pose proof (rank_mono p q (length samples) Hpq). lia.
Qed.

(** C7.  On a non-empty series the four percentiles exist and are in
    order: p50 <= p90 <= p95 <= p99. *)
Theorem percentiles_are_monotone (samples : list Q) :
  samples <> [] ->
  exists a b c d : Q,
    p50 samples = Some a /\ p90 samples = Some b /\
    p95 samples = Some c /\ p99 samples = Some d /\
    (a <= b)%Q /\ (b <= c)%Q /\ (c <= d)%Q.
Proof.
  intros Hne.
  destruct (percentile_is_Some 50 samples Hne) as [a Ha]; [lia|].
  destruct (percentile_is_Some 90 samples Hne) as [b Hb]; [lia|].
  destruct (percentile_is_Some 95 samples Hne) as [c Hc]; [lia|].
  destruct (percentile_is_Some 99 samples Hne) as [d Hd]; [lia|].
  exists a, b, c, d. unfold p50, p90, p95, p99.
  repeat split; try assumption.
  - apply (percentile_mono 50 90 samples); [lia | assumption | assumption].
  - apply (percentile_mono 90 95 samples); [lia | assumption | assumption].
  - apply (percentile_mono 95 99 samples); [lia | assumption | assumption].
Qed.

(** Four samples. *)
Lemma percentiles_are_monotone_witness :
  exists a b c d : Q,
    p50 [310; 120; 4100; 90]%Q = Some a /\ p90 [310; 120; 4100; 90]%Q = Some b /\
    p95 [310; 120; 4100; 90]%Q = Some c /\ p99 [310; 120; 4100; 90]%Q = Some d /\
    (a <= b)%Q /\ (b <= c)%Q /\ (c <= d)%Q.
Proof.
  apply (percentiles_are_monotone [310; 120; 4100; 90]%Q). discriminate.
Defined.

(** ** The helpers, one by one *)


(** X2.  [login] is the only helper that feeds a Rate: one sample of
    [login_failures] per call, the negation of its checks; every other
    helper leaves the Rates as they are. *)
Theorem only_login_feeds_a_rate (c : Call) (w : World) (s : State) :
  rates (fst (invoke c w s)) =
  match c with
  | CallLogin _ _ =>
      <[loginFailRate := default [] (rates s !! loginFailRate) ++
                         [negb (passes login_checks (http w (n_http s)))]]> (rates s)
  | _ => rates s
  end.
Proof. rewrite invoke_run. destruct c; reflexivity. Qed.

Lemma value_of_truthy x r :
  passes (checks_of (call_of x)) r = true ->
  truthy (value_of x r) = true /\ truthy (data_field (checked_field x) r) = true.
Proof.
  intros Hp.
  pose proof (passes_field _ _ _ _ (extraction_check_in x) Hp) as Hv.
  apply has_data_field_passed in Hv as (_ & _ & _ & _ & Hd & Hf).
  split; [|exact Hf].
  destruct x; cbn [value_of checked_field] in *; auto.
Qed.

(** X3.  An extracting helper returns a truthy value exactly when its checks
    passed; what it returns is [null], or the field that its check tests is
    there and truthy. *)
Theorem extraction_succeeds_iff_checks_pass (x : Extractor) (w : World) (s : State) :
  exists s' v,
    extract x w s = (s', Return v) /\
    truthy v = passes (checks_of (call_of x)) (http w (n_http s)) /\
    (v = VNull \/ truthy (data_field (checked_field x) (http w (n_http s))) = true).
Proof.
  rewrite extract_run. do 2 eexists. split; [reflexivity|].
  destruct (passes (checks_of (call_of x)) (http w (n_http s))) eqn:Hp.
  - apply value_of_truthy in Hp as [Hv Hf]. auto.
  - auto.
Qed.

(** X4.  [healthCheck] answers true exactly when the status is 200 and the
    answer was faster than 100 ms; it feeds no Trend and no Rate. *)
Theorem healthCheck_verdict (w : World) (s : State) :
  exists s',
    healthCheck w s = (s', Return (Z.eqb (status (http w (n_http s))) 200 &&
                                   Qltb (timings_duration (http w (n_http s))) 100)) /\
    tags s' = tags s ++ ["health_check"] /\
    trends s' = trends s /\ rates s' = rates s.
Proof.
  rewrite healthCheck_run. exists (after_call CallHealthCheck w s).
  split; [|split; [|split]]; try reflexivity;
    [|apply (tags_after_call CallHealthCheck)].
  f_equal. f_equal.
  unfold passes, healthCheck_checks, verdict, status_is, faster_than.
  cbn [forallb snd truthy]. now rewrite andb_true_r.
Qed.

(** X5.  With a draw in [0, 1) and [min <= max], [thinkTime] sleeps once, for
    a duration between [min] and [max], and draws one number. *)
Theorem thinkTime_bounds (min max : Q) (w : World) (s : State) :
  (0 <= random w (n_random s))%Q -> (random w (n_random s) < 1)%Q -> (min <= max)%Q ->
  exists d,
    thinkTime min max w s = (add_sleep d (use_random 1 s), Return tt) /\
    (min <= d)%Q /\ (d <= max)%Q.
Proof.
  intros H0 H1 Hm. eexists. split; [apply thinkTime_run|].
  set (r := random w (n_random s)) in *. split; nra.
Qed.

Lemma thinkTime_bounds_witness :
  exists d,
    thinkTime 1 2 world_all_ok initial_state
      = (add_sleep d (use_random 1 initial_state), Return tt) /\
    (1 <= d)%Q /\ (d <= 2)%Q.
Proof.
  apply (thinkTime_bounds 1 2 world_all_ok initial_state); vm_compute; congruence.
Defined.

Lemma charAt_chars k :
  0 <= k < 36 ->
  exists c, charAt chars k = String c "" /\ In c (list_ascii_of_string chars).
Proof.
  intros Hk. unfold charAt.
  destruct (Z.ltb_spec k 0); [lia|].
  assert (Hn : (Z.to_nat k < 36)%nat) by lia.
  generalize dependent (Z.to_nat k). intros n Hn.
  do 36 (destruct n as [|n]; [eexists; split; [reflexivity | cbn; tauto]|]).
  lia.
Qed.

Lemma draw_in_range (r : Q) : (0 <= r)%Q -> (r < 1)%Q -> 0 <= Qfloor (r * 36) < 36.
Proof.
  intros H0 H1. split.
  - change 0 with (Qfloor 0). apply Qfloor_resp_le. nra.
  - pose proof (Qfloor_le (r * 36)) as Hf.
    assert (Hlt : (inject_Z (Qfloor (r * 36)) < inject_Z 36)%Q).
    { eapply Qle_lt_trans; [exact Hf|]. change (inject_Z 36) with 36%Q. nra. }
    now rewrite <- Zlt_Qlt in Hlt.
Qed.

Lemma random_chars_shape w i n :
  (forall k, (0 <= random w k)%Q /\ (random w k < 1)%Q) ->
  String.length (random_chars w i n) = n /\
  forall c, In c (list_ascii_of_string (random_chars w i n)) ->
            In c (list_ascii_of_string chars).
Proof.
  intros Hr. revert i. induction n as [|n IH]; intros i.
  - split; [reflexivity|]. intros c [].
  - cbn [random_chars].
    destruct (Hr i) as [H0 H1].
    destruct (charAt_chars _ (draw_in_range _ H0 H1)) as (c0 & -> & Hc0).
    destruct (IH (S i)) as [Hlen Hin].
    change (String c0 "" +:+ random_chars w (S i) n)
      with (String c0 (random_chars w (S i) n)).
    split.
    + cbn [String.length]. now rewrite Hlen.
    + cbn [list_ascii_of_string]. intros c [<-|Hc]; [exact Hc0 | now apply Hin].
Qed.

(** X6.  With draws in [0, 1), [randomString n] draws [n] numbers and returns
    [n] characters of the alphabet. *)
Theorem randomString_shape (n : nat) (w : World) (s : State) :
  (forall k, (0 <= random w k)%Q /\ (random w k < 1)%Q) ->
  exists str,
    randomString n w s = (use_random n s, Return str) /\
    String.length str = n /\
    forall c, In c (list_ascii_of_string str) -> In c (list_ascii_of_string chars).
Proof.
  intros Hr. eexists. split; [apply randomString_run|].
  now apply random_chars_shape.
Qed.

Lemma randomString_shape_witness :
  exists str,
    randomString 5 world_all_ok initial_state = (use_random 5 initial_state, Return str) /\
    String.length str = 5%nat /\
    forall c, In c (list_ascii_of_string str) -> In c (list_ascii_of_string chars).
Proof.
  apply (randomString_shape 5 world_all_ok initial_state).
  intros k. vm_compute. split; congruence.
Defined.

(** X7.  [selectTestUser] finds a user exactly when the array is not empty and
    the id is at least 1 or the length divides [vuId - 1]: below 1 the
    remainder is negative and the read is [undefined]. *)
Theorem selectTestUser_defined_iff {A} (users : list A) (vuId : Z) :
  is_Some (selectTestUser users vuId) <->
  users <> [] /\ (1 <= vuId \/ (vuId - 1) mod Z.of_nat (length users) = 0).
Proof.
  unfold selectTestUser.
  destruct (Z.eqb_spec (Z.of_nat (length users)) 0) as [E|E].
  - split; [intros [? ?]; discriminate|]. intros [Hne _]. destruct users; [congruence|].
    cbn in E. lia.
  - assert (Hlen : 0 < Z.of_nat (length users)) by lia.
    assert (Hne : users <> []) by (intros ->; cbn in E; lia).
    destruct (Z.ltb_spec (Z.rem (vuId - 1) (Z.of_nat (length users))) 0) as [Hneg|Hpos].
    + split; [intros [? ?]; discriminate|]. intros [_ [Hv|Hm]].
      * rewrite Z.rem_mod_nonneg in Hneg by lia.
        pose proof (Z.mod_pos_bound (vuId - 1) _ Hlen). lia.
      * apply Z.mod_divide in Hm; [|lia]. apply Z.rem_divide in Hm; [|lia]. lia.
    + rewrite lookup_lt_is_Some. split.
      * intros _. split; [exact Hne|].
        destruct (Z_le_gt_dec 1 vuId) as [?|Hlt]; [now left|right].
        pose proof (Z.rem_nonpos (vuId - 1) (Z.of_nat (length users))).
        assert (Hz : Z.rem (vuId - 1) (Z.of_nat (length users)) = 0) by lia.
        apply Z.rem_divide in Hz; [|lia]. apply Z.mod_divide; [lia | exact Hz].
      * intros _.
        pose proof (Z.rem_bound_abs (vuId - 1) (Z.of_nat (length users))).
        assert (Z.rem (vuId - 1) (Z.of_nat (length users)) < Z.of_nat (length users)).
        { destruct (Z_le_gt_dec 0 (vuId - 1)).
          - apply Z.rem_bound_pos; lia.
          - pose proof (Z.rem_nonpos (vuId - 1) (Z.of_nat (length users))). lia. }
        lia.
Qed.

(** ** The spike journey *)

#[local] Opaque after_call add_sleep use_random use_clock add_rate add_trend.

Ltac finish_did :=
  last_step;
  apply iteration_did_intro; autorewrite with k6_state;
    [ rewrite <- ?app_assoc; reflexivity | reflexivity ].

Lemma spike_test_steps w s :
  exists s',
    spike_test_default w s = (s', Return tt) /\
    iteration_did s s' (spike_test_tags w s)
      (negb (truthy (signup_token (http w (n_http s))))).
Proof.
  unfold spike_test_tags, spike_creates, spike_logout_draw,
    spike_test_default, group, record_scenario. cbn [Nat.add].
  run_on. branch_signup; run_on; [|finish_did].
  branch_day_plan; run_on; cbn [andb].
  - match goal with
    | |- context [Qltb ?r (2 # 10)] => destruct (Qltb r (2 # 10)) eqn:Hdraw
    end; run_on.
    + branch_created; run_on;
        match goal with
        | |- context [Qltb ?r (5 # 10)] => destruct (Qltb r (5 # 10)) eqn:Hout
        end; run_on; finish_did.
    + match goal with
      | |- context [Qltb ?r (5 # 10)] => destruct (Qltb r (5 # 10)) eqn:Hout
      end; run_on; finish_did.
  - match goal with
    | |- context [Qltb ?r (5 # 10)] => destruct (Qltb r (5 # 10)) eqn:Hout
    end; run_on; finish_did.
Qed.

#[local] Transparent after_call add_sleep use_random use_clock add_rate add_trend.

(** ** load-test2.js *)

Lemma signupTestUser_run includes e p n w s :
  signupTestUser includes e p n w s =
  (after_setup_signup s,
   let r := http w (n_http s) in
   if breaks_signupTestUser r then Throw TypeError
   else Return (Z.eqb (status r) 200 || Z.eqb (status r) 409 || includes r "DUPLICATE")).
Proof.
  unfold signupTestUser, breaks_signupTestUser, after_setup_signup.
  cbn [bind get_cfg http_request]. cbv zeta.
  destruct (Z.eqb (status (http w (n_http s))) 200); [reflexivity|].
  destruct (Z.eqb (status (http w (n_http s))) 409); [reflexivity|].
  destruct (body (http w (n_http s))); reflexivity.
Qed.

Lemma create_accounts_run includes w n :
  forall i accs cnt s,
    (forall j, (j < n)%nat -> breaks_signupTestUser (http w (j + n_http s)) = false) ->
    exists s' cnt',
      create_accounts includes i n accs cnt w s =
        (s', Return (accs ++ map generateTestAccount (seq i n), cnt')) /\
      n_http s' = (n + n_http s)%nat /\
      tags s' = tags s ++ replicate n "setup_signup" /\
      sleeps s' = sleeps s ++
        replicate (length (filter (fun j => (j mod 10)%nat = 9%nat) (seq i n))) 1%Q /\
      trends s' = trends s /\ rates s' = rates s /\ checks s' = checks s /\
      cfg s' = cfg s /\ n_clock s' = n_clock s.
Proof.
  induction n as [|n IH]; intros i accs cnt s Hok.
  - exists s, cnt. cbn. rewrite !app_nil_r. auto 10.
  - cbn [create_accounts]. unfold bind at 1. rewrite signupTestUser_run. cbv zeta.
    rewrite (Hok 0%nat ltac:(lia) : breaks_signupTestUser (http w (n_http s)) = false).
    set (created := (_ || _ || _)%bool).
    set (cnt1 := if created then S cnt else cnt).
    assert (Hstep : exists s1,
      (if Nat.eqb (i mod 10) 9 then sleep 1 else ret tt) w (after_setup_signup s)
        = (s1, Return tt) /\
      n_http s1 = S (n_http s) /\ tags s1 = tags s ++ ["setup_signup"] /\
      sleeps s1 = sleeps s ++ (if Nat.eqb (i mod 10) 9 then [1%Q] else []) /\
      trends s1 = trends s /\ rates s1 = rates s /\ checks s1 = checks s /\
      cfg s1 = cfg s /\ n_clock s1 = n_clock s).
    { unfold tags. destruct (Nat.eqb (i mod 10) 9); eexists; (split; [reflexivity|]);
        cbn; rewrite ?map_app, ?app_nil_r; auto 10. }
    destruct Hstep as (s1 & Hrun & Hn & Ht & Hs & Htr & Hr & Hc & Hcfg & Hck).
    unfold bind at 1. rewrite Hrun.
    destruct (IH (S i) (accs ++ [generateTestAccount i]) cnt1 s1) as
      (s' & cnt' & Hrun' & Hn' & Ht' & Hs' & Htr' & Hr' & Hc' & Hcfg' & Hck').
    { intros j Hj. rewrite Hn. replace (j + S (n_http s))%nat with (S j + n_http s)%nat by lia.
      apply Hok. lia. }
    exists s', cnt'. rewrite Hrun', Hn', Ht', Hs', Htr', Hr', Hc', Hcfg', Hck'.
    rewrite Hn, Ht, Hs, Htr, Hr, Hc, Hcfg, Hck.
    cbn [seq map replicate]. rewrite <- !app_assoc. cbn [app].
    repeat split; try reflexivity; try lia.
    f_equal.
    destruct (Nat.eqb_spec (i mod 10) 9) as [E|E].
    + rewrite filter_cons_True by exact E. reflexivity.
    + rewrite filter_cons_False by exact E. reflexivity.
Qed.

Lemma create_accounts_breaks includes w n :
  forall i accs cnt s,
    (exists j, (j < n)%nat /\ breaks_signupTestUser (http w (j + n_http s)) = true) ->
    exists s', create_accounts includes i n accs cnt w s = (s', Throw TypeError).
Proof.
  induction n as [|n IH]; intros i accs cnt s (j & Hj & Hbad); [lia|].
  cbn [create_accounts]. unfold bind at 1. rewrite signupTestUser_run. cbv zeta.
  destruct (breaks_signupTestUser (http w (n_http s))) eqn:Hb; [eauto|].
  unfold bind at 1.
  destruct j as [|j]; [cbn in Hbad; congruence|].
  assert (Hstep : exists s1,
    (if Nat.eqb (i mod 10) 9 then sleep 1 else ret tt) w (after_setup_signup s)
      = (s1, Return tt) /\ n_http s1 = S (n_http s)).
  { destruct (Nat.eqb (i mod 10) 9); eexists; split; reflexivity. }
  destruct Hstep as (s1 & -> & Hn).
  apply IH. exists j. split; [lia|]. rewrite Hn.
  now replace (j + S (n_http s))%nat with (S j + n_http s)%nat by lia.
Qed.

(** X8.  When the health check passes and no answer breaks [signupTestUser],
    the setup of load-test2.js issues the health check and one signup per
    account, pauses ten times, and hands out all the accounts it
    generated, created or not. *)
Theorem load_test2_setup_hands_out_all_accounts
    (includes : Response -> string -> bool) (w : World) (s : State) :
  passes healthCheck_checks (http w (n_http s)) = true ->
  (forall j, (j < NUM_TEST_ACCOUNTS)%nat ->
             breaks_signupTestUser (http w (S j + n_http s)) = false) ->
  exists s' data,
    load_test2_setup includes w s = (s', Return data) /\
    accounts data = map generateTestAccount (seq 0 NUM_TEST_ACCOUNTS) /\
    tags s' = tags s ++ "health_check" :: replicate NUM_TEST_ACCOUNTS "setup_signup" /\
    sleeps s' = sleeps s ++ replicate 10 1%Q.
Proof.
  intros Hh Hok. unfold load_test2_setup.
  erewrite bind_run by apply healthCheck_run. rewrite Hh. cbn [negb].
  destruct (create_accounts_run includes w NUM_TEST_ACCOUNTS 0 [] 0
              (after_call CallHealthCheck w s)) as
    (s1 & cnt & Hrun & Hn & Ht & Hs & _).
  { intros j Hj. rewrite n_http_after_call.
    replace (j + S (n_http s))%nat with (S j + n_http s)%nat by lia. now apply Hok. }
  erewrite bind_run by exact Hrun.
  eexists _, _. split; [reflexivity|]. cbn [accounts app].
  split; [reflexivity|]. split.
  - cbn [new_Date]. change (tags (use_clock 1 s1)) with (tags s1).
    rewrite Ht, (tags_after_call CallHealthCheck). now rewrite <- app_assoc.
  - change (sleeps (use_clock 1 s1)) with (sleeps s1). rewrite Hs. reflexivity.
Qed.

(** X9.  When the health check passes and the signup of some account is
    answered without a body, with a status other than 200 and 409, the
    setup of load-test2.js throws a TypeError. *)
Theorem load_test2_setup_breaks_on_absent_body
    (includes : Response -> string -> bool) (w : World) (s : State) :
  passes healthCheck_checks (http w (n_http s)) = true ->
  (exists j, (j < NUM_TEST_ACCOUNTS)%nat /\
             breaks_signupTestUser (http w (S j + n_http s)) = true) ->
  exists s', load_test2_setup includes w s = (s', Throw TypeError).
Proof.
  intros Hh (j & Hj & Hbad). unfold load_test2_setup.
  erewrite bind_run by apply healthCheck_run. rewrite Hh. cbn [negb].
  destruct (create_accounts_breaks includes w NUM_TEST_ACCOUNTS 0 [] 0
              (after_call CallHealthCheck w s)) as (s1 & Hrun).
  { exists j. split; [exact Hj|]. rewrite n_http_after_call.
    now replace (j + S (n_http s))%nat with (S j + n_http s)%nat by lia. }
  exists s1. unfold bind. now rewrite Hrun.
Qed.

Lemma login_token_passed r :
  truthy (login_token r) = true -> passes login_checks r = true.
Proof. unfold login_token. destruct (passes login_checks r); [reflexivity | discriminate]. Qed.

Lemma login_group_run a w s :
  login_group (Some a) w s =
  (after_call (CallLogin (account_email a) (account_password a)) w s,
   Return (passes login_checks (http w (n_http s)), login_token (http w (n_http s)))).
Proof.
  unfold login_group, group, login_token.
  erewrite bind_run by helper_run. cbn [call_of checks_of value_of].
  destruct (passes login_checks (http w (n_http s))); reflexivity.
Qed.

Lemma rates_after_login e p w s :
  rates (after_call (CallLogin e p) w s) =
  <[loginFailRate := default [] (rates s !! loginFailRate) ++
                     [negb (passes login_checks (http w (n_http s)))]]> (rates s).
Proof. reflexivity. Qed.

#[local] Hint Rewrite rates_after_login : k6_state.

Ltac journey2_run :=
  lazymatch goal with
  | |- login_group _ _ _ = _ => apply login_group_run
  | |- _ => journey_run
  end.

Ltac k6_step2 :=
  first
    [ rewrite bind_assoc
    | erewrite bind_run by journey2_run
    | progress cbv beta iota
    | progress cbn [call_of checks_of value_of draws_of fst snd Nat.add]
    | progress autorewrite with k6_state ].

Ltac run_on2 :=
  repeat k6_step2; rewrite ?created_schedule_found;
  repeat match goal with
         | H : passes createSchedule_checks _ = _ |- _ => rewrite !H
         end;
  cbn [negb]; repeat k6_step2.

Ltac branch_login :=
  match goal with
  | |- context [truthy (login_token ?r)] =>
      let H := fresh "Htoken" in
      destruct (truthy (login_token r)) eqn:H; cbn [negb];
      [ rewrite ?(login_token_passed _ H) | ]
  end.

Ltac finish_iteration2 :=
  lazymatch goal with
  | |- exists s', ?m ?w ?s = (s', Return tt) /\ _ =>
      eexists; split; [journey2_run|]
  end;
  autorewrite with k6_state;
  split; [ rewrite <- ?app_assoc; reflexivity |];
  rewrite ?lookup_insert_eq, ?lookup_insert_ne by discriminate;
  rewrite ?lookup_insert_eq;
  try match goal with
      | H : truthy (login_token _) = true |- _ => rewrite !(login_token_passed _ H)
      end;
  split; reflexivity.

#[local] Opaque after_call add_sleep use_random use_clock add_rate add_trend.

Lemma load_test2_run vu data a w s :
  selectTestUser (accounts data) vu = Some a ->
  exists s',
    load_test2_default vu data w s = (s', Return tt) /\
    tags s' = tags s ++ load_test2_tags (progress2 w (n_http s)) /\
    rates s' !! scenarioFailRate =
      Some (default [] (rates s !! scenarioFailRate) ++
            [recorded_failure (progress2 w (n_http s))]) /\
    rates s' !! loginFailRate =
      Some (default [] (rates s !! loginFailRate) ++
            [negb (passes login_checks (http w (n_http s)))]).
Proof.
  intros Ha.
  unfold progress2, load_test2_default, group, record_scenario. cbn [Nat.add].
  rewrite Ha.
  run_on2. branch_login; run_on2; [|finish_iteration2].
  branch_day_plan; run_on2; [|finish_iteration2].
  branch_created; run_on2; finish_iteration2.
Qed.

#[local] Transparent after_call add_sleep use_random use_clock add_rate add_trend.

Lemma selectTestUser_Some {A} (users : list A) (vuId : Z) :
  users <> [] -> 1 <= vuId -> is_Some (selectTestUser users vuId).
Proof.
  intros Hne Hv. unfold selectTestUser.
  assert (Hlen : 0 < Z.of_nat (length users)) by (destruct users; [congruence | cbn; lia]).
  destruct (Z.eqb_spec (Z.of_nat (length users)) 0); [lia|].
  rewrite Z.rem_mod_nonneg by lia.
  pose proof (Z.mod_pos_bound (vuId - 1) (Z.of_nat (length users)) Hlen).
  destruct (Z.ltb_spec ((vuId - 1) mod Z.of_nat (length users)) 0); [lia|].
  apply lookup_lt_is_Some_2. lia.
Qed.

(** X10.  With an account to use, an iteration of load-test2.js never throws;
    it calls the helpers its progress determines, in the order of the
    source, logs out also when the day plan is missing, and adds one
    sample to [scenario_failures] and one to [login_failures]. *)
Theorem load_test2_iteration (vu : Z) (data : SetupData) (w : World) (s : State) :
  accounts data <> [] -> 1 <= vu ->
  exists s',
    load_test2_default vu data w s = (s', Return tt) /\
    tags s' = tags s ++ load_test2_tags (progress2 w (n_http s)) /\
    rates s' !! scenarioFailRate =
      Some (default [] (rates s !! scenarioFailRate) ++
            [recorded_failure (progress2 w (n_http s))]) /\
    rates s' !! loginFailRate =
      Some (default [] (rates s !! loginFailRate) ++
            [negb (passes login_checks (http w (n_http s)))]).
Proof.
  intros Hne Hvu.
  destruct (selectTestUser_Some (accounts data) vu Hne Hvu) as [a Ha].
  now apply (load_test2_run vu data a).
Qed.

(** X11.  Without accounts the iteration of load-test2.js throws a TypeError
    at [account.email], before any request. *)
Theorem load_test2_iteration_without_accounts (vu : Z) (data : SetupData)
    (w : World) (s : State) :
  accounts data = [] ->
  load_test2_default vu data w s = (use_clock 1 s, Throw TypeError).
Proof.
  intros Hnil. unfold load_test2_default, selectTestUser. rewrite Hnil. reflexivity.
Qed.

Lemma string_length_app (a b : string) :
  String.length (a +:+ b) = (String.length a + String.length b)%nat.
Proof.
  induction a as [|c a IH]; [reflexivity|].
  change (String c a +:+ b) with (String c (a +:+ b)).
  cbn [String.length Nat.add]. now rewrite IH.
Qed.

Lemma string_app_inv_tail (a b t : string) : a +:+ t = b +:+ t -> a = b.
Proof.
  revert b. induction a as [|c a IH]; intros [|d b] H.
  - reflexivity.
  - apply (f_equal String.length) in H.
    rewrite !string_length_app in H. cbn [String.length] in H. lia.
  - apply (f_equal String.length) in H.
    rewrite !string_length_app in H. cbn [String.length] in H. lia.
  - change (String c (a +:+ t) = String d (b +:+ t)) in H.
    injection H as -> H. f_equal. now apply IH.
Qed.

Lemma account_email_inj i j :
  account_email (generateTestAccount i) = account_email (generateTestAccount j) -> i = j.
Proof.
  unfold generateTestAccount. cbn [account_email]. intros H.
  apply (inj (String.app "loadtest_prod_")) in H.
  apply string_app_inv_tail in H. now apply (inj pretty) in H.
Qed.

(** X12.  [generateTestAccount] gives different accounts for different
    indexes. *)
Theorem generated_accounts_are_distinct (i j : nat) :
  generateTestAccount i = generateTestAccount j <-> i = j.
Proof.
  split; [|now intros ->]. intros H. apply account_email_inj. now rewrite H.
Qed.

(** ** What a run leaves in the metrics *)

Lemma default_adds_one_sample script w s :
  exists s' failed,
    default_of script w s = (s', Return tt) /\
    rates s' = <[scenarioFailRate := scenario_failures s ++ [failed]]> (rates s).
Proof.
  destruct script; cbn [default_of].
  - destruct (load_test_run w s) as (s' & H & [_ Hr] & _). eauto.
  - destruct (stress_test_run w s) as (s' & H & [_ Hr] & _). eauto.
  - destruct (spike_test_steps w s) as (s' & H & [_ Hr]). eauto.
Qed.

Lemma iterate_samples script n w :
  forall s,
  exists s' outcomes,
    iterate n (default_of script) w s = (s', Return tt) /\
    length outcomes = n /\
    scenario_failures s' = scenario_failures s ++ outcomes /\
    forall name, name <> scenarioFailRate -> rates s' !! name = rates s !! name.
Proof.
  induction n as [|n IH]; intros s.
  - exists s, []. rewrite app_nil_r. auto.
  - destruct (default_adds_one_sample script w s) as (s1 & failed & H1 & Hr1).
    destruct (IH s1) as (s2 & outcomes & H2 & Hlen & Hs & Hother).
    exists s2, (failed :: outcomes). split; [|split; [|split]].
    + cbn [iterate]. erewrite bind_run by exact H1. exact H2.
    + cbn. now rewrite Hlen.
    + rewrite Hs. unfold scenario_failures at 1. rewrite Hr1, lookup_insert_eq.
      cbn [default from_option id]. now rewrite <- app_assoc.
    + intros name Hname. rewrite Hother by exact Hname.
      rewrite Hr1. now rewrite lookup_insert_ne.
Qed.

(** X13.  After a passed health check, a run of [n] iterations of the load,
    stress or spike script adds exactly [n] samples to
    [scenario_failures] and touches no other Rate. *)
Theorem run_records_every_iteration (script : Script) (n : nat) (w : World) (s : State) :
  passes healthCheck_checks (http w (n_http s)) = true ->
  exists s' outcomes,
    test_run (testType_of script) (default_of script) n w s = (s', Return tt) /\
    length outcomes = n /\
    scenario_failures s' = scenario_failures s ++ outcomes /\
    forall name, name <> scenarioFailRate -> rates s' !! name = rates s !! name.
Proof.
  intros Hh. unfold test_run. unfold bind at 1. rewrite setup_run, Hh.
  destruct (iterate_samples script n w (use_clock 1 (after_call CallHealthCheck w s)))
    as (s' & outcomes & H & Hlen & Hs & Hother).
  exists s', outcomes. auto.
Qed.

Lemma run_records_every_iteration_witness :
  exists s' outcomes,
    test_run (testType_of StressTest) (default_of StressTest) 3 world_idle initial_state
      = (s', Return tt) /\
    length outcomes = 3%nat /\
    scenario_failures s' = scenario_failures initial_state ++ outcomes /\
    forall name, name <> scenarioFailRate -> rates s' !! name = rates initial_state !! name.
Proof.
  apply (run_records_every_iteration StressTest 3 world_idle initial_state).
  vm_compute. reflexivity.
Defined.

(** *** The duration of a scenario *)

Lemma scenario_durations_after_call c w s :
  scenario_durations (after_call c w s) = scenario_durations s.
Proof.
  unfold scenario_durations.
  destruct c; cbn; try reflexivity; now rewrite lookup_insert_ne.
Qed.

Lemma scenario_durations_add_sleep q s :
  scenario_durations (add_sleep q s) = scenario_durations s.
Proof. reflexivity. Qed.

Lemma scenario_durations_use_random k s :
  scenario_durations (use_random k s) = scenario_durations s.
Proof. reflexivity. Qed.

Lemma scenario_durations_use_clock k s :
  scenario_durations (use_clock k s) = scenario_durations s.
Proof. reflexivity. Qed.

Lemma scenario_durations_add_rate k b s :
  scenario_durations (add_rate k b s) = scenario_durations s.
Proof. reflexivity. Qed.

Lemma scenario_durations_add_trend v s :
  scenario_durations (add_trend fullScenarioDuration v s) = scenario_durations s ++ [v].
Proof. unfold scenario_durations. cbn. now rewrite lookup_insert_eq. Qed.

#[local] Hint Rewrite scenario_durations_after_call scenario_durations_add_sleep
  scenario_durations_use_random scenario_durations_use_clock scenario_durations_add_rate
  scenario_durations_add_trend : k6_state.

Ltac finish_durations :=
  lazymatch goal with
  | |- exists s', ?m ?w ?s = (s', Return tt) /\ _ =>
      eexists; split; [journey2_run|]
  end;
  autorewrite with k6_state;
  first [ exists []; split; [now rewrite app_nil_r | reflexivity]
        | eexists [_]; split; reflexivity ].

#[local] Opaque after_call add_sleep use_random use_clock add_rate add_trend.

Lemma load_test_durations w s :
  exists s',
    load_test_default w s = (s', Return tt) /\
    exists samples,
      scenario_durations s' = scenario_durations s ++ samples /\
      length samples = if ran_to_end (progress w (n_http s)) then 1%nat else 0%nat.
Proof.
  unfold progress, load_test_default, group, record_scenario. cbn [Nat.add].
  run_on. branch_signup; run_on; [|finish_durations].
  branch_day_plan; run_on; [|finish_durations].
  branch_created; run_on; finish_durations.
Qed.

Lemma stress_test_durations w s :
  exists s',
    stress_test_default w s = (s', Return tt) /\
    exists samples,
      scenario_durations s' = scenario_durations s ++ samples /\
      length samples = if ran_to_end (progress w (n_http s)) then 1%nat else 0%nat.
Proof.
  unfold progress, stress_test_default, group, record_scenario. cbn [Nat.add].
  run_on. branch_signup; run_on; [|finish_durations].
  branch_day_plan; run_on; [|finish_durations].
  branch_created; run_on; finish_durations.
Qed.

Lemma spike_test_durations w s :
  exists s',
    spike_test_default w s = (s', Return tt) /\
    exists samples,
      scenario_durations s' = scenario_durations s ++ samples /\
      length samples =
        if truthy (signup_token (http w (n_http s))) then 1%nat else 0%nat.
Proof.
  unfold spike_test_default, group, record_scenario.
  run_on. branch_signup; run_on; [|finish_durations].
  branch_day_plan; run_on.
  - match goal with
    | |- context [Qltb ?r (2 # 10)] => destruct (Qltb r (2 # 10)) eqn:Hdraw
    end; run_on.
    + branch_created; run_on;
        match goal with
        | |- context [Qltb ?r (5 # 10)] => destruct (Qltb r (5 # 10)) eqn:Hout
        end; run_on; finish_durations.
    + match goal with
      | |- context [Qltb ?r (5 # 10)] => destruct (Qltb r (5 # 10)) eqn:Hout
      end; run_on; finish_durations.
  - match goal with
    | |- context [Qltb ?r (5 # 10)] => destruct (Qltb r (5 # 10)) eqn:Hout
    end; run_on; finish_durations.
Qed.

#[local] Transparent after_call add_sleep use_random use_clock add_rate add_trend.

(** X14.  An iteration adds its duration to [full_scenario_duration] exactly
    when it reaches the end of the function; an iteration that returns
    early adds none. *)
Theorem duration_is_recorded_at_the_end (script : Script) (w : World) (s : State) :
  exists s' samples,
    default_of script w s = (s', Return tt) /\
    scenario_durations s' = scenario_durations s ++ samples /\
    length samples = if reaches_the_end script w s then 1%nat else 0%nat.
Proof.
  destruct script; cbn [default_of reaches_the_end].
  - destruct (load_test_durations w s) as (s' & H & samples & Hs & Hl). eauto.
  - destruct (stress_test_durations w s) as (s' & H & samples & Hs & Hl). eauto.
  - destruct (spike_test_durations w s) as (s' & H & samples & Hs & Hl). eauto.
Qed.

(** ** The breakpoint journey *)

Ltac finish_both :=
  lazymatch goal with
  | |- exists s', ?m ?w ?s = (s', Return tt) /\ _ =>
      eexists; split; [journey2_run|]
  end;
  split;
  [ apply iteration_did_intro; autorewrite with k6_state;
    [ rewrite <- ?app_assoc; reflexivity | reflexivity ]
  | autorewrite with k6_state; eexists; reflexivity ].

#[local] Opaque after_call add_sleep use_random use_clock add_rate add_trend.

Lemma breakpoint_test_run w s :
  exists s',
    breakpoint_test_default w s = (s', Return tt) /\
    iteration_did s s' (breakpoint_test_tags w s)
      (negb (truthy (signup_token (http w (n_http s))))) /\
    exists elapsed, scenario_durations s' = scenario_durations s ++ [elapsed].
Proof.
  unfold breakpoint_test_tags, breakpoint_test_default, group, record_scenario.
  cbn [Nat.add].
  run_on. branch_signup; run_on; [|finish_both].
  branch_day_plan; run_on; cbn [andb].
  - match goal with
    | |- context [Qltb ?r (5 # 10)] => destruct (Qltb r (5 # 10)) eqn:Hdraw
    end; run_on.
    + branch_created; run_on; finish_both.
    + finish_both.
  - finish_both.
Qed.

#[local] Transparent after_call add_sleep use_random use_clock add_rate add_trend.

(** ** The rest of the report *)


(** X15.  [getPercentage] is at most 100, at least 0 on numbers that are not
    negative, and 100 once the value reaches a positive maximum. *)
Theorem getPercentage_bounds (value max : option Q) :
  (getPercentage value max <= 100)%Q /\
  (forall v m, value = Some v -> max = Some m -> (0 <= v)%Q -> (0 <= m)%Q ->
     (0 <= getPercentage value max)%Q) /\
  (forall v m, value = Some v -> max = Some m -> (0 < m)%Q -> (m <= v)%Q ->
     (getPercentage value max == 100)%Q).
Proof.
  unfold getPercentage. split; [|split].
  - destruct (falsy_number value || falsy_number max); [discriminate|].
    cbv zeta. destruct (Qle_bool _ 100) eqn:H; [now apply Qle_bool_iff | apply Qle_refl].
  - intros v m -> -> Hv Hm. cbn [falsy_number or_zero default from_option id].
    destruct (Qeq_bool v 0 || Qeq_bool m 0) eqn:Hz; [apply Qle_refl|].
    apply orb_false_elim in Hz as [_ Hm0]. apply Qeq_bool_neq in Hm0.
    cbv zeta. destruct (Qle_bool _ 100); [|discriminate].
    assert (0 < m)%Q by (apply Qle_lteq in Hm as [?|E]; [assumption | now symmetry in E]).
    apply Qmult_le_0_compat; [|discriminate].
    apply Qle_shift_div_l; [assumption|]. now rewrite Qmult_0_l.
  - intros v m -> -> Hm Hv. cbn [falsy_number or_zero default from_option id].
    assert (Hv0 : (0 < v)%Q) by (eapply Qlt_le_trans; eassumption).
    assert (Hnv : Qeq_bool v 0 = false).
    { apply not_true_is_false. intros E. apply Qeq_bool_iff in E. rewrite E in Hv0.
      exact (Qlt_irrefl _ Hv0). }
    assert (Hnm : Qeq_bool m 0 = false).
    { apply not_true_is_false. intros E. apply Qeq_bool_iff in E. rewrite E in Hm.
      exact (Qlt_irrefl _ Hm). }
    rewrite Hnv, Hnm. cbn [orb]. cbv zeta.
    destruct (Qle_bool (v / m * 100) 100) eqn:H; [|reflexivity].
    apply Qle_bool_iff in H. apply Qle_antisym; [exact H|].
    assert (1 <= v / m)%Q.
    { apply Qle_shift_div_l; [assumption|]. now rewrite Qmult_1_l. }
    nra.
Qed.


(** X17.  [createReportOutput] yields three entries under three different
    keys, whatever the test name and the time are. *)
Theorem createReportOutput_has_three_entries (d : Summary) (testName iso : string) :
  exists html json,
    createReportOutput d testName iso !! html
      = Some (HtmlReport (generateHtmlReport d testName)) /\
    createReportOutput d testName iso !! json = Some (JsonDump d) /\
    createReportOutput d testName iso !! "stdout" = Some (TextSummary d) /\
    size (createReportOutput d testName iso) = 3%nat /\
    html <> json /\ html <> "stdout" /\ json <> "stdout".
Proof.
  unfold createReportOutput. cbv zeta.
  set (base := "k6-tests/reports" +:+ "/" +:+ testName +:+ "-" +:+ timestamp_of iso).
  assert (Hassoc : forall ext,
    "k6-tests/reports" +:+ "/" +:+ testName +:+ "-" +:+ timestamp_of iso +:+ ext
    = "k6-tests/reports/" +:+ (testName +:+ "-" +:+ timestamp_of iso +:+ ext))
    by reflexivity.
  rewrite !Hassoc.
  set (html := "k6-tests/reports/" +:+ (testName +:+ "-" +:+ timestamp_of iso +:+ ".html")).
  set (json := "k6-tests/reports/" +:+ (testName +:+ "-" +:+ timestamp_of iso +:+ ".json")).
  assert (Hhj : html <> json).
  { unfold html, json. intros E.
    apply (inj (String.app "k6-tests/reports/")) in E.
    apply (inj (String.app testName)) in E.
    apply (inj (String.app "-")) in E.
    apply (inj (String.app (timestamp_of iso))) in E. discriminate. }
  assert (Hhs : html <> "stdout") by (unfold html; discriminate).
  assert (Hjs : json <> "stdout") by (unfold json; discriminate).
  exists html, json. repeat split; try assumption.
  - rewrite lookup_insert_ne by congruence. rewrite lookup_insert_ne by congruence.
    apply lookup_insert_eq.
  - rewrite lookup_insert_ne by congruence. apply lookup_insert_eq.
  - apply lookup_insert_eq.
  - rewrite !map_size_insert_None; [now rewrite map_size_empty | | |].
    + apply lookup_empty.
    + rewrite lookup_insert_ne by congruence. apply lookup_empty.
    + rewrite lookup_insert_ne by congruence. rewrite lookup_insert_ne by congruence.
      apply lookup_empty.
Qed.

Lemma duration_name_shown name :
  In name durationMetricNames ->
  name <> refreshTokenDuration /\ name <> updateScheduleDuration /\
  name <> aiArrangementDuration.
Proof.
  cbn. intros H.
  repeat (destruct H as [<-|H]; [repeat split; discriminate|]). destruct H.
Qed.



(** ** The power user, and the iterations of the other scripts *)

#[local] Opaque after_call add_sleep use_random use_clock add_rate add_trend.












#[local] Transparent after_call add_sleep use_random use_clock add_rate add_trend.




(** X20.  An iteration of spike-test.js never throws, calls the helpers that
    the answers and its two draws determine, and is recorded as failed
    exactly when the signup gave no token. *)
Theorem spike_iteration (w : World) (s : State) :
  exists s',
    spike_test_default w s = (s', Return tt) /\
    tags_since s s' = spike_test_tags w s /\
    rates s' !! scenarioFailRate =
      Some (default [] (rates s !! scenarioFailRate) ++
            [negb (truthy (signup_token (http w (n_http s))))]).
Proof.
  destruct (spike_test_steps w s) as (s' & Hrun & [Htags Hrates]).
  exists s'. rewrite Hrates, lookup_insert_eq. auto.
Qed.

(** X21.  An iteration of breakpoint-test.js never throws and never logs out;
    it adds its duration on every path, and is recorded as failed exactly
    when the signup gave no token. *)
Theorem breakpoint_iteration (w : World) (s : State) :
  exists s' elapsed,
    breakpoint_test_default w s = (s', Return tt) /\
    tags_since s s' = breakpoint_test_tags w s /\
    invocations "logout" (breakpoint_test_tags w s) = 0%nat /\
    rates s' !! scenarioFailRate =
      Some (default [] (rates s !! scenarioFailRate) ++
            [negb (truthy (signup_token (http w (n_http s))))]) /\
    scenario_durations s' = scenario_durations s ++ [elapsed].
Proof.
  destruct (breakpoint_test_run w s) as (s' & Hrun & [Htags Hrates] & elapsed & Hd).
  exists s', elapsed. rewrite Hrates, lookup_insert_eq.
  repeat split; try assumption; try reflexivity.
  unfold breakpoint_test_tags.
  destruct (negb (truthy (signup_token (http w (n_http s))))); [reflexivity|].
  destruct (truthy (day_plan_id (http w (2 + n_http s))) &&
            Qltb (random w (8 + n_random s)) (5 # 10)); [|reflexivity].
  destruct (truthy (created_schedule (http w (3 + n_http s)))); reflexivity.
Qed.

Lemma load_test2_setup_hands_out_all_accounts_witness :
  exists s' data,
    load_test2_setup no_duplicates world_idle initial_state = (s', Return data) /\
    accounts data = map generateTestAccount (seq 0 NUM_TEST_ACCOUNTS) /\
    tags s' = tags initial_state ++
              "health_check" :: replicate NUM_TEST_ACCOUNTS "setup_signup" /\
    sleeps s' = sleeps initial_state ++ replicate 10 1%Q.
Proof.
  apply (load_test2_setup_hands_out_all_accounts no_duplicates world_idle initial_state).
  - vm_compute. reflexivity.
  - intros j _. reflexivity.
Defined.

Lemma load_test2_setup_breaks_on_absent_body_witness :
  exists s',
    load_test2_setup no_duplicates world_down_after_health initial_state
      = (s', Throw TypeError).
Proof.
  apply (load_test2_setup_breaks_on_absent_body no_duplicates world_down_after_health
           initial_state).
  - vm_compute. reflexivity.
  - exists 0%nat. split; [unfold NUM_TEST_ACCOUNTS; lia | reflexivity].
Defined.

Lemma load_test2_iteration_witness :
  exists s',
    load_test2_default 7
      {| accounts := map generateTestAccount (seq 0 NUM_TEST_ACCOUNTS);
         data_testType := "load-production" |} world_idle initial_state
      = (s', Return tt) /\
    tags s' = tags initial_state ++
              load_test2_tags (progress2 world_idle (n_http initial_state)) /\
    rates s' !! scenarioFailRate =
      Some (default [] (rates initial_state !! scenarioFailRate) ++
            [recorded_failure (progress2 world_idle (n_http initial_state))]) /\
    rates s' !! loginFailRate =
      Some (default [] (rates initial_state !! loginFailRate) ++
            [negb (passes login_checks (http world_idle (n_http initial_state)))]).
Proof.
  apply (load_test2_iteration 7
           {| accounts := map generateTestAccount (seq 0 NUM_TEST_ACCOUNTS);
              data_testType := "load-production" |} world_idle initial_state).
  - discriminate.
  - lia.
Defined.

Lemma load_test2_iteration_without_accounts_witness :
  load_test2_default 1 {| accounts := []; data_testType := "load-production" |}
    world_idle initial_state
  = (use_clock 1 initial_state, Throw TypeError).
Proof.
  apply (load_test2_iteration_without_accounts 1
           {| accounts := []; data_testType := "load-production" |}
           world_idle initial_state).
  reflexivity.
Defined.

(** ** Bodies that cannot be used, across the scripts *)





